(** * JumpServer terminal registry: apps/terminal/models/terminal.py

    A shallow embedding of the terminal model module: the liveness mixin
    (a presence flag in the expiring cache), the storage mixin (backend
    lookup with fallback to the settings), the protocol catalog and the
    terminal entity with its soft delete and its status text.

    Python objects become records, the ORM tables become lists and finite
    maps, and code that writes to the database or may raise runs in a small
    state-and-exception monad. *)

From Stdlib Require Import ZArith Lia.
From stdpp Require Import base option list gmap strings.

Local Open Scope string_scope.
Local Open Scope list_scope.
Local Open Scope Z_scope.

(** ** Python values, truthiness and exceptions *)

Module Py.

(** The values this module stores in the cache. *)
Inductive pyval : Type :=
| PyNone
| PyBool (b : bool)
| PyInt (n : Z)
| PyStr (s : string).

(** Python's truth-value protocol ([bool(x)], used by [if x], [not x] and
    [all]). *)
Class Truthy (A : Type) := truthy : A -> bool.
Global Hint Mode Truthy ! : typeclass_instances.

Global Instance bool_truthy : Truthy bool := fun b => b.
Global Instance int_truthy : Truthy Z := fun n => negb (n =? 0).
Global Instance str_truthy : Truthy string :=
  fun s => match s with EmptyString => false | String _ _ => true end.
Global Instance option_truthy {A} `{Truthy A} : Truthy (option A) :=
  fun o => match o with None => false | Some x => truthy x end.
Global Instance pyval_truthy : Truthy pyval :=
  fun v => match v with
           | PyNone => false
           | PyBool b => truthy b
           | PyInt n => truthy n
           | PyStr s => truthy s
           end.

(** [all(xs)] over a list of truth values. *)
Definition all (xs : list bool) : bool := forallb (fun b => b) xs.

Inductive Exception : Type :=
| AssertionError (msg : string)
| DoesNotExist
| MultipleObjectsReturned
| IntegrityError
| KeyError (key : string)
| RaisedBy (subsystem : string) (msg : string).

(** How a call ends: with a value, or with a raised exception. *)
Inductive outcome (A : Type) : Type :=
| Returns (a : A)
| Raises (e : Exception).
Global Arguments Returns {A} a.
Global Arguments Raises {A} e.

(** A computation over a mutable state [S]: it ends with an outcome and
    leaves a state behind, also when it raises. *)
Definition M (S A : Type) : Type := S -> outcome A * S.

Definition ret {S A} (a : A) : M S A := fun s => (Returns a, s).
Definition raise {S A} (e : Exception) : M S A := fun s => (Raises e, s).
Definition bind {S A B} (m : M S A) (k : A -> M S B) : M S B :=
  fun s => match m s with
           | (Returns a, s') => k a s'
           | (Raises e, s') => (Raises e, s')
           end.
(** [try: m except: h] *)
Definition try_except {S A} (m : M S A) (h : Exception -> M S A) : M S A :=
  fun s => match m s with
           | (Returns a, s') => (Returns a, s')
           | (Raises e, s') => h e s'
           end.
Definition get_state {S} : M S S := fun s => (Returns s, s).
Definition put_state {S} (s : S) : M S unit := fun _ => (Returns tt, s).
Definition modify {S} (f : S -> S) : M S unit := fun s => (Returns tt, f s).

Definition state_after {S A} (r : outcome A * S) : S := snd r.
Definition outcome_of {S A} (r : outcome A * S) : outcome A := fst r.

End Py.
Export Py.

Declare Scope py_scope.
Delimit Scope py_scope with py.
Notation "x <~ m ;; k" := (bind m (fun x => k))
  (at level 100, m at next level, right associativity) : py_scope.
Notation "m ;;; k" := (bind m (fun _ => k))
  (at level 100, right associativity) : py_scope.
Local Open Scope py_scope.

(** ** The expiring key/value store (django.core.cache)

    The collaborator's contract: [set(key, value, timeout)] keeps the value
    for [timeout] seconds ([None]: for ever) and [get(key, default)] gives
    the stored value while it is unexpired, the default otherwise. The clock
    is an explicit reading in seconds. *)

Module Cache.

Record entry := Entry { value : pyval; expires : option Z }.

Abbreviation t := (gmap string entry).

Definition expired (now : Z) (e : entry) : bool :=
  match expires e with
  | None => false
  | Some deadline => deadline <=? now
  end.

Definition set (key : string) (v : pyval) (timeout : option Z)
    (now : Z) (c : t) : t :=
  <[key := Entry v ((fun ttl => now + ttl) <$> timeout)]> c.

Definition get (key : string) (default : pyval) (now : Z) (c : t) : pyval :=
  match c !! key with
  | Some e => if expired now e then default else value e
  | None => default
  end.

End Cache.

(** ** TerminalStatusMixin *)

Module TerminalStatusMixin.

(** ['TERMINAL_ALIVE_{}'.format(id)] *)
Definition ALIVE_KEY_format (id : string) : string :=
  "TERMINAL_ALIVE_" +:+ id.

Definition is_alive (id : string) (now : Z) (c : Cache.t) : pyval :=
  let key := ALIVE_KEY_format id in
  Cache.get key (PyBool false) now c.

Definition set_alive (id : string) (ttl : Z) (now : Z) (c : Cache.t)
    : Cache.t :=
  let key := ALIVE_KEY_format id in
  Cache.set key (PyBool true) (Some ttl) now c.

(** The default of the [ttl] parameter. *)
Definition set_alive_default_ttl : Z := 120.

(** [set_alive()] called without a ttl. *)
Definition set_alive_default (id : string) (now : Z) (c : Cache.t)
    : Cache.t :=
  set_alive id set_alive_default_ttl now c.

End TerminalStatusMixin.


(** ** StorageMixin

    The mixin reads [self.command_storage] and [self.replay_storage] (the
    names it declares), the two storage tables and the settings. A storage
    configuration is passed through as it is, so its type is left open. *)

Module StorageMixin.

Section WithConfig.

Context {Config : Type}.

(** Modelled from the spec: the models of .storage, [CommandStorage] and
    [ReplayStorage]; a backend row has a [name] and a [config]. *)
Record Storage := { storage_name : string; storage_config : Config }.

(** A model instance defines neither [__bool__] nor [__len__]: it is true. *)
#[global] Instance storage_truthy : Truthy Storage := fun _ => true.

Record Settings := {
  DEFAULT_TERMINAL_COMMAND_STORAGE : Config;
  DEFAULT_TERMINAL_REPLAY_STORAGE : Config
}.

(** [objects.filter(name=n).first()]: the first matching row, or [None]. *)
Definition objects_filter_name_first (n : string) (tbl : list Storage)
    : option Storage :=
  head (filter (fun s => storage_name s = n) tbl).

Definition get_command_storage (command_storage : string)
    (CommandStorage : list Storage) : option Storage :=
  let storage := objects_filter_name_first command_storage CommandStorage in
  storage.

Definition get_command_storage_config (command_storage : string)
    (CommandStorage : list Storage) (settings : Settings) : Config :=
  let s := get_command_storage command_storage CommandStorage in
  match s with
  | Some r =>
      if truthy s then storage_config r
      else DEFAULT_TERMINAL_COMMAND_STORAGE settings
  | None => DEFAULT_TERMINAL_COMMAND_STORAGE settings
  end.

Definition get_command_storage_setting (command_storage : string)
    (CommandStorage : list Storage) (settings : Settings)
    : list (string * Config) :=
  let config :=
    get_command_storage_config command_storage CommandStorage settings in
  [("TERMINAL_COMMAND_STORAGE", config)].

Definition get_replay_storage (replay_storage : string)
    (ReplayStorage : list Storage) : option Storage :=
  let storage := objects_filter_name_first replay_storage ReplayStorage in
  storage.

Definition get_replay_storage_config (replay_storage : string)
    (ReplayStorage : list Storage) (settings : Settings) : Config :=
  let s := get_replay_storage replay_storage ReplayStorage in
  match s with
  | Some r =>
      if truthy s then storage_config r
      else DEFAULT_TERMINAL_REPLAY_STORAGE settings
  | None => DEFAULT_TERMINAL_REPLAY_STORAGE settings
  end.

Definition get_replay_storage_setting (replay_storage : string)
    (ReplayStorage : list Storage) (settings : Settings)
    : list (string * Config) :=
  let config :=
    get_replay_storage_config replay_storage ReplayStorage settings in
  [("TERMINAL_REPLAY_STORAGE", config)].

End WithConfig.

Global Arguments Storage : clear implicits.
Global Arguments Settings : clear implicits.

End StorageMixin.

(** ** const: protocol names and the terminal types' protocols *)

Module const.

(** Modelled from the spec: apps/terminal/const.py, which declares
    [ProtocolName] and [terminal_type_protocols_mapper]. A [ProtocolName]
    member as this module reads it: its [name] and its canonical
    [default_port]. The mapper itself is a parameter of the protocol
    catalog below. *)
Record ProtocolName := { name : string; default_port : Z }.

End const.

(** ** Protocol: the catalog table and its class methods *)

Module Protocol.

(** A row of the protocol table, with its automatic primary key. *)
Record t := { pk : nat; name : string; port : Z; builtin : bool }.

(** [Meta.unique_together = ('name', 'port')] *)
Definition unique_key (p : t) : string * Z := (name p, port p).

Definition unique_together (tbl : list t) : Prop :=
  NoDup (unique_key <$> tbl).

(** The key of a fresh row: above every key in use. *)
Definition next_pk (tbl : list t) : nat :=
  S (foldr Nat.max 0%nat (pk <$> tbl)).

(** *** The manager ([Protocol.objects]), as the ORM defines it *)

(** [objects.get(name=, port=, builtin=)]: the one matching row. *)
Definition objects_get (n : string) (po : Z) (b : bool) : M (list t) t :=
  fun tbl =>
    match filter (fun p => name p = n /\ port p = po /\ builtin p = b) tbl with
    | [] => (Raises DoesNotExist, tbl)
    | [p] => (Returns p, tbl)
    | _ :: _ :: _ => (Raises MultipleObjectsReturned, tbl)
    end.

(** [objects.create(name=, port=, builtin=)]: the insert is refused when a
    row with the same (name, port) exists. The bounds of the columns are
    not part of this: a name of more than 64 characters or a port outside
    the integer column, which the database refuses in another way, is not
    a value of the table. *)
Definition objects_create (n : string) (po : Z) (b : bool) : M (list t) t :=
  fun tbl =>
    if bool_decide ((n, po) ∈ unique_key <$> tbl)
    then (Raises IntegrityError, tbl)
    else
      let p := {| pk := next_pk tbl; name := n; port := po; builtin := b |} in
      (Returns p, tbl ++ [p]).

(** [objects.get_or_create(name=, port=, builtin=)]: get; when there is no
    such row, create; when the insert is refused, get once more and raise the
    refusal again if there is still no such row. *)
Definition objects_get_or_create (n : string) (po : Z) (b : bool)
    : M (list t) (t * bool) :=
  try_except
    (p <~ objects_get n po b ;; ret (p, false))
    (fun e =>
       match e with
       | DoesNotExist =>
           try_except
             (p <~ objects_create n po b ;; ret (p, true))
             (fun e' =>
                match e' with
                | IntegrityError =>
                    try_except
                      (p <~ objects_get n po b ;; ret (p, false))
                      (fun e'' =>
                         match e'' with
                         | DoesNotExist => raise IntegrityError
                         | _ => raise e''
                         end)
                | _ => raise e'
                end)
       | _ => raise e
       end).

(** *** The dictionaries of protocol data

    [{'name': ..., 'port': ..., 'builtin': ...}], each key present or not;
    [d.get(k)] is [None] for a missing key. *)
Record data := { d_name : option string; d_port : option Z;
                 d_builtin : option bool }.

Section WithConst.

Variable terminal_type_protocols_mapper : gmap string (list const.ProtocolName).

Definition get_default_protocols_data {S} (ttype : string)
    : M S (list data) :=
  (if bool_decide (is_Some (terminal_type_protocols_mapper !! ttype))
   then ret tt
   else raise (AssertionError ("No support terminal type: " +:+ ttype))) ;;;
  support_protocols <~
    match terminal_type_protocols_mapper !! ttype with
    | Some ps => ret ps
    | None => raise (KeyError ttype)
    end ;;
  let protocols_data :=
    (fun p => {| d_name := Some (const.name p);
                 d_port := Some (const.default_port p);
                 d_builtin := Some true |}) <$> support_protocols in
  ret protocols_data.

(** The loop of [get_or_create_protocols], from the list [protocols]
    collected so far. *)
Fixpoint get_or_create_protocols_from (protocols : list t) (ds : list data)
    : M (list t) (list t) :=
  match ds with
  | [] => ret protocols
  | d :: rest =>
      let name := d_name d in
      let port := d_port d in
      if negb (all [truthy name; truthy port])
      then get_or_create_protocols_from protocols rest
      else
        match name, port with
        | Some n, Some po =>
            r <~ objects_get_or_create n po true ;;
            let protocol := fst r in
            get_or_create_protocols_from (protocols ++ [protocol]) rest
        | _, _ =>
            (* not reached: a missing value is false *)
            get_or_create_protocols_from protocols rest
        end
  end.

Definition get_or_create_protocols (ds : list data) : M (list t) (list t) :=
  get_or_create_protocols_from [] ds.

Definition get_default_protocols (ttype : string) : M (list t) (list t) :=
  ds <~ get_default_protocols_data ttype ;;
  get_or_create_protocols ds.

(** The members of the enumeration [const.ProtocolName], in the order
    [for p in const.ProtocolName] yields them. *)
Variable ProtocolName : list const.ProtocolName.

Definition get_initial_data : list data :=
  let data :=
    (fun p => {| d_name := Some (const.name p);
                 d_port := Some (const.default_port p);
                 d_builtin := Some true |}) <$> ProtocolName in
  data.

Definition initial_to_db : M (list t) (list t) :=
  let data := get_initial_data in
  get_or_create_protocols data.

End WithConst.

End Protocol.

(** ** User: the owning account *)

Module User.

(** Modelled from the spec: users.models.User, the account a terminal owns;
    an account has a key and an [is_active] flag. Its [delete()] is a
    parameter of the terminal's methods. *)
Record t := { pk : nat; username : string; is_active : bool }.

#[global] Instance user_truthy : Truthy t := fun _ => true.

End User.

(** ** Terminal *)

Module Terminal.

(** The instance [self]: the model's fields, [user] holding the related
    account object or [None]. The many-to-many fields live in the database. *)
Record t := {
  id : string;
  name : string;
  type : string;
  remote_addr : string;
  ssh_port : Z;
  http_port : Z;
  command_storage : string;
  replay_storage : string;
  user : option User.t;
  is_accepted : bool;
  is_deleted : bool;
  date_created : Z;
  comment : string
}.

(** The row of table "terminal": [user] is stored as the account's key. *)
Record row := {
  row_name : string;
  row_type : string;
  row_remote_addr : string;
  row_ssh_port : Z;
  row_http_port : Z;
  row_command_storage : string;
  row_replay_storage : string;
  row_user_id : option nat;
  row_is_accepted : bool;
  row_is_deleted : bool;
  row_date_created : Z;
  row_comment : string
}.

Definition to_row (self : t) : row :=
  {| row_name := name self; row_type := type self;
     row_remote_addr := remote_addr self;
     row_ssh_port := ssh_port self; row_http_port := http_port self;
     row_command_storage := command_storage self;
     row_replay_storage := replay_storage self;
     row_user_id := User.pk <$> user self;
     row_is_accepted := is_accepted self; row_is_deleted := is_deleted self;
     row_date_created := date_created self; row_comment := comment self |}.

(** The tables the methods below read and write: the protocol catalog, the
    rows of the [protocols] many-to-many field (per terminal, the keys of
    its protocols), the terminals by primary key and the accounts. *)
Record Database := {
  protocol_tbl : list Protocol.t;
  terminal_protocols : gmap string (gset nat);
  terminal_tbl : gmap string row;
  user_tbl : gmap nat User.t
}.

(** What a method runs on: the instance and the database. *)
Record Env := { self : t; db : Database }.

Definition on_db {A} (m : M Database A) : M Env A :=
  fun env =>
    let r := m (db env) in
    (outcome_of r, {| self := self env; db := state_after r |}).

Definition on_protocol_tbl {A} (m : M (list Protocol.t) A) : M Database A :=
  fun d =>
    let r := m (protocol_tbl d) in
    (outcome_of r,
     {| protocol_tbl := state_after r;
        terminal_protocols := terminal_protocols d;
        terminal_tbl := terminal_tbl d;
        user_tbl := user_tbl d |}).

(** [self.user = v] *)
Definition setattr_user (v : option User.t) : M Env unit :=
  modify (fun env =>
    let s := self env in
    {| self := {| id := id s; name := name s; type := type s;
                  remote_addr := remote_addr s;
                  ssh_port := ssh_port s; http_port := http_port s;
                  command_storage := command_storage s;
                  replay_storage := replay_storage s;
                  user := v;
                  is_accepted := is_accepted s; is_deleted := is_deleted s;
                  date_created := date_created s; comment := comment s |};
       db := db env |}).

(** [self.is_deleted = v] *)
Definition setattr_is_deleted (v : bool) : M Env unit :=
  modify (fun env =>
    let s := self env in
    {| self := {| id := id s; name := name s; type := type s;
                  remote_addr := remote_addr s;
                  ssh_port := ssh_port s; http_port := http_port s;
                  command_storage := command_storage s;
                  replay_storage := replay_storage s;
                  user := user s;
                  is_accepted := is_accepted s; is_deleted := v;
                  date_created := date_created s; comment := comment s |};
       db := db env |}).

(** [self.save()]: the row under the instance's primary key is written. *)
Definition save : M Env unit :=
  modify (fun env =>
    let d := db env in
    {| self := self env;
       db := {| protocol_tbl := protocol_tbl d;
                terminal_protocols := terminal_protocols d;
                terminal_tbl :=
                  <[id (self env) := to_row (self env)]> (terminal_tbl d);
                user_tbl := user_tbl d |} |}).

(** [self.protocols.set(objs)]: the terminal's rows of the many-to-many
    table become the keys of [objs]; rows of other protocols go. *)
Definition protocols_set (objs : list Protocol.t) : M Env unit :=
  modify (fun env =>
    let d := db env in
    {| self := self env;
       db := {| protocol_tbl := protocol_tbl d;
                terminal_protocols :=
                  <[id (self env) := list_to_set (Protocol.pk <$> objs)]>
                    (terminal_protocols d);
                terminal_tbl := terminal_tbl d;
                user_tbl := user_tbl d |} |}).

(** [self.protocols.all()], as the set of primary keys. *)
Definition protocols (env : Env) : gset nat :=
  default ∅ (terminal_protocols (db env) !! id (self env)).

Definition is_active (self : t) : bool :=
  if (match user self with
      | Some u => truthy (user self) && truthy (User.is_active u)
      | None => false
      end)
  then true
  else false.

Definition is_alive (self : t) (now : Z) (cache : Cache.t) : pyval :=
  TerminalStatusMixin.is_alive (id self) now cache.

Definition service_account (self : t) : option User.t := user self.

Section WithCollaborators.

Variable terminal_type_protocols_mapper : gmap string (list const.ProtocolName).

(** [User.delete()], the account subsystem's own deletion: it may raise,
    and it does to the database what it does. *)
Variable User_delete : User.t -> M Database unit.

Definition reset_protocols_to_default : M Env unit :=
  env <~ get_state ;;
  default_protocols <~
    on_db (on_protocol_tbl
      (Protocol.get_default_protocols terminal_type_protocols_mapper
         (type (self env)))) ;;
  protocols_set default_protocols.

Definition delete : M Env unit :=
  env <~ get_state ;;
  match user (self env) with
  | Some u =>
      if truthy (user (self env)) then on_db (User_delete u) else ret tt
  | None => ret tt
  end ;;;
  setattr_user None ;;;
  setattr_is_deleted true ;;;
  save.

(** [User.save()], the account subsystem's own write of an account. *)
Variable User_save : User.t -> M Database unit.

(** The setter of [is_active]: [self.user.is_active = active] on the
    account object the instance holds, then [self.user.save()]. *)
Definition is_active_setter (active : bool) : M Env unit :=
  env <~ get_state ;;
  match user (self env) with
  | Some u =>
      if truthy (user (self env)) then
        let u' := {| User.pk := User.pk u; User.username := User.username u;
                     User.is_active := active |} in
        setattr_user (Some u') ;;;
        on_db (User_save u')
      else ret tt
  | None => ret tt
  end.

End WithCollaborators.

(** The [status] that [__str__] computes. *)
Definition status (self : t) (now : Z) (cache : Cache.t) : string :=
  let status := "Active" in
  if negb (is_accepted self) then "NotAccept"
  else if is_deleted self then "Deleted"
  else if negb (is_active self) then "Disable"
  else if negb (truthy (is_alive self now cache)) then "Offline"
  else status.

(** ['%s: %s' % (self.name, status)] *)
Definition __str__ (self : t) (now : Z) (cache : Cache.t) : string :=
  name self +:+ ": " +:+ status self now cache.

(** *** The merged configuration

    Setting values are Python objects of any kind, passed through as they
    are: one open type [V] stands for them. *)

Section WithSettings.

Context {V : Type}.

(** [django.conf.settings] as [config] reads it: the names [dir(settings)]
    lists, each with the value [getattr(settings, name)] gives, the two
    storage defaults and the two security settings. *)
Record Settings := {
  dir_settings : list (string * V);
  storage_defaults : StorageMixin.Settings V;
  SECURITY_MAX_IDLE_TIME : V;
  SECURITY_SESSION_SHARE : V
}.

(** [settings.utils.get_login_title()] *)
Variable get_login_title : V.

(** [d.update(other)], the pairs of [other] in order. *)
Definition dict_update (other : list (string * V)) (d : gmap string V)
    : gmap string V :=
  foldl (fun d kv => <[kv.1 := kv.2]> d) d other.

Definition get_login_title_setting : list (string * V) :=
  [("TERMINAL_HEADER_TITLE", get_login_title)].

Definition config (self : t) (CommandStorage ReplayStorage
    : list (StorageMixin.Storage V)) (settings : Settings) : gmap string V :=
  let configs :=
    foldl (fun configs kv =>
             let k := kv.1 in
             if negb (String.prefix "TERMINAL" k) then configs
             else <[k := kv.2]> configs)
      ∅ (dir_settings settings) in
  let configs :=
    dict_update
      (StorageMixin.get_command_storage_setting (command_storage self)
         CommandStorage (storage_defaults settings)) configs in
  let configs :=
    dict_update
      (StorageMixin.get_replay_storage_setting (replay_storage self)
         ReplayStorage (storage_defaults settings)) configs in
  let configs := dict_update get_login_title_setting configs in
  let configs :=
    dict_update
      [("SECURITY_MAX_IDLE_TIME", SECURITY_MAX_IDLE_TIME settings);
       ("SECURITY_SESSION_SHARE", SECURITY_SESSION_SHARE settings)]
      configs in
  configs.

End WithSettings.

Global Arguments Settings : clear implicits.

End Terminal.

(** ** BaseTerminalQuerySet and TerminalManager

    A queryset is the list of instances it yields, each with its account
    joined in. The place of an instance in the list stands for nothing: a
    query comes back ordered by [Meta.ordering] and beyond that as the
    database has it, so the views are described by what they yield, not by
    the order. *)

Module BaseTerminalQuerySet.

Definition undeleted (self : list Terminal.t) : list Terminal.t :=
  filter (fun t => Terminal.is_deleted t = false) self.

(** [filter(user__is_active=True)]: the terminal has an account and the
    account is active. *)
Definition user__is_active (t : Terminal.t) : bool :=
  match Terminal.user t with
  | Some u => User.is_active u
  | None => false
  end.

Definition active (self : list Terminal.t) : list Terminal.t :=
  filter (fun t => user__is_active t = true) (undeleted self).

Definition alive (now : Z) (cache : Cache.t) (self : list Terminal.t)
    : list Terminal.t :=
  let ids :=
    Terminal.id <$>
      filter (fun i => truthy (Terminal.is_alive i now cache) = true)
        (active self) in
  filter (fun t => Terminal.id t ∈ ids) self.

End BaseTerminalQuerySet.

Module TerminalManager.

(** [get_queryset()] is the whole table. *)
Definition active (table : list Terminal.t) : list Terminal.t :=
  BaseTerminalQuerySet.active table.

Definition alive (now : Z) (cache : Cache.t) (table : list Terminal.t)
    : list Terminal.t :=
  BaseTerminalQuerySet.alive now cache table.

End TerminalManager.

(** ** Migration 0121: the platforms' sftp protocol

    apps/assets/migrations/0121_auto_20230725_1458.py, function
    [migrate_platforms_sftp_protocol]. The table of platform protocols is
    the list of its rows in the order the database yields them, each row
    with its platform joined in; what [print] writes is kept as a list of
    lines. *)

Module migration_0121.

(** Modelled from the spec: the historical models [assets.Platform] and
    [assets.PlatformProtocol] that [apps.get_model] gives, with the fields
    the migration reads and writes. Platforms are compared by primary key,
    as model instances are. *)
Record Platform := {
  platform_id : nat;
  platform_name : string;
  platform_type : string
}.

Record PlatformProtocol := {
  name : string;
  port : Z;
  primary : bool;
  required : bool;
  default : bool;
  public : bool;
  setting : gmap string pyval;
  platform : Platform
}.

#[global] Instance pyval_eq_dec : EqDecision pyval.
Proof. solve_decision. Defined.

(** A dict is true unless it is empty. *)
#[global] Instance json_truthy : Truthy (gmap string pyval) :=
  fun d => negb (bool_decide (d = ∅)).

Record State := { rows : list PlatformProtocol; stdout : list string }.

(** [filter(name='ssh', setting__sftp_enabled=True)
     .exclude(name__in=('Gateway', 'RemoteAppHost'))
     .filter(platform__type='linux')] *)
Definition ssh_protocols (tbl : list PlatformProtocol)
    : list PlatformProtocol :=
  filter (fun p => platform_type (platform p) = "linux")
    (filter (fun p => name p ∉ ["Gateway"; "RemoteAppHost"])
       (filter (fun p => name p = "ssh" /\
                         setting p !! "sftp_enabled" = Some (PyBool true))
          tbl)).

(** [Platform.objects.filter(protocols__name='sftp')]: one platform per
    row named sftp. *)
Definition platforms_has_sftp (tbl : list PlatformProtocol)
    : list Platform :=
  platform <$> filter (fun q => name q = "sftp") tbl.

(** The body of the [for] loop, over the rows left to visit. *)
Fixpoint collect (has_sftp : list Platform)
    (protocols : list PlatformProtocol)
    (new_protocols : list PlatformProtocol) (out : list string)
    : list PlatformProtocol * list string :=
  match protocols with
  | [] => (new_protocols, out)
  | protocol :: rest =>
      let protocol_setting :=
        if truthy (setting protocol) then setting protocol else ∅ in
      if bool_decide (platform_id (platform protocol)
                      ∈ platform_id <$> has_sftp)
      then collect has_sftp rest new_protocols out
      else
        let new_protocol :=
          {| name := "sftp";
             port := port protocol;
             primary := false;
             required := false;
             default := true;
             public := true;
             setting :=
               {[ "sftp_home" :=
                    from_option (fun v => v) (PyStr "/tmp")
                      (protocol_setting !! "sftp_home") ]};
             platform := platform protocol |} in
        collect has_sftp rest (new_protocols ++ [new_protocol])
          (out ++ [" - " +:+ platform_name (platform protocol)])
  end.

(** [d[k] = v] on a dict kept as the list of its items in insertion order:
    a key that is there keeps its place and gets the new value. *)
Fixpoint dict_setitem (k : string * nat) (v : PlatformProtocol)
    (d : list ((string * nat) * PlatformProtocol))
    : list ((string * nat) * PlatformProtocol) :=
  match d with
  | [] => [(k, v)]
  | (k', v') :: d' =>
      if decide (k' = k) then (k', v) :: d'
      else (k', v') :: dict_setitem k v d'
  end.

(** [{(protocol.name, protocol.platform): protocol for protocol in ...}] *)
Definition new_protocols_dict (new_protocols : list PlatformProtocol)
    : list ((string * nat) * PlatformProtocol) :=
  foldl (fun d protocol =>
           dict_setitem (name protocol, platform_id (platform protocol))
             protocol d)
    [] new_protocols.

Section WithStore.

(** The table's uniqueness constraints, whatever they are: whether a row
    would be refused by the table as it stands. *)
Variable violates : PlatformProtocol -> list PlatformProtocol -> bool.

(** [bulk_create(objs, ignore_conflicts=True)]: each row is inserted
    unless the table refuses it, in which case it is dropped. *)
Fixpoint bulk_create_ignore_conflicts (objs : list PlatformProtocol)
    (tbl : list PlatformProtocol) : list PlatformProtocol :=
  match objs with
  | [] => tbl
  | o :: rest =>
      bulk_create_ignore_conflicts rest
        (if violates o tbl then tbl else tbl ++ [o])
  end.

Definition migrate_platforms_sftp_protocol (st : State) : State :=
  let ssh_protocols := ssh_protocols (rows st) in
  let platforms_has_sftp := platforms_has_sftp (rows st) in
  let out :=
    stdout st
    ++ [String (Ascii.ascii_of_nat 10) "Platform add sftp protocol: "] in
  let '(new_protocols, out) :=
    collect platforms_has_sftp ssh_protocols [] out in
  let new_protocols_dict := new_protocols_dict new_protocols in
  let new_protocols := snd <$> new_protocols_dict in
  {| rows := bulk_create_ignore_conflicts new_protocols (rows st);
     stdout := out |}.

End WithStore.

End migration_0121.

(** ** Sample data

    The specification's example: terminal type "koko" supports ssh, whose
    catalog entry is ssh/22. The terminals, stores and account subsystems
    below are the concrete inputs the statements are evaluated on. *)

Module Sample.

Definition ssh : const.ProtocolName :=
  {| const.name := "ssh"; const.default_port := 22 |}.

Definition rdp : const.ProtocolName :=
  {| const.name := "rdp"; const.default_port := 3389 |}.

Definition mapper : gmap string (list const.ProtocolName) :=
  {[ "koko" := [ssh] ]}.

Definition account : User.t :=
  {| User.pk := 7%nat; User.username := "koko-01"; User.is_active := true |}.

Definition terminal : Terminal.t :=
  {| Terminal.id := "0b1e"; Terminal.name := "koko-01";
     Terminal.type := "koko"; Terminal.remote_addr := "10.0.0.5";
     Terminal.ssh_port := 2222; Terminal.http_port := 5000;
     Terminal.command_storage := "default";
     Terminal.replay_storage := "default";
     Terminal.user := Some account;
     Terminal.is_accepted := true; Terminal.is_deleted := false;
     Terminal.date_created := 0; Terminal.comment := "" |}.

(** Not accepted, deleted, the account disabled, and never seen alive. *)
Definition rejected_terminal : Terminal.t :=
  {| Terminal.id := "77aa"; Terminal.name := "lion-02";
     Terminal.type := "lion"; Terminal.remote_addr := "";
     Terminal.ssh_port := 2222; Terminal.http_port := 5000;
     Terminal.command_storage := "default";
     Terminal.replay_storage := "default";
     Terminal.user :=
       Some {| User.pk := 8%nat; User.username := "lion-02";
               User.is_active := false |};
     Terminal.is_accepted := false; Terminal.is_deleted := true;
     Terminal.date_created := 0; Terminal.comment := "" |}.

(** A terminal without an account. *)
Definition orphan_terminal : Terminal.t :=
  {| Terminal.id := "c3d4"; Terminal.name := "koko-03";
     Terminal.type := "koko"; Terminal.remote_addr := "";
     Terminal.ssh_port := 2222; Terminal.http_port := 5000;
     Terminal.command_storage := "es";
     Terminal.replay_storage := "s3";
     Terminal.user := None;
     Terminal.is_accepted := true; Terminal.is_deleted := false;
     Terminal.date_created := 0; Terminal.comment := "" |}.

Definition database : Terminal.Database :=
  {| Terminal.protocol_tbl := [];
     Terminal.terminal_protocols := ∅;
     Terminal.terminal_tbl := {[ "0b1e" := Terminal.to_row terminal ]};
     Terminal.user_tbl := {[ 7%nat := account ]} |}.

(** An account subsystem whose deletion removes the account's row. *)
Definition User_delete_removes (u : User.t) : M Terminal.Database unit :=
  modify (fun d =>
    {| Terminal.protocol_tbl := Terminal.protocol_tbl d;
       Terminal.terminal_protocols := Terminal.terminal_protocols d;
       Terminal.terminal_tbl := Terminal.terminal_tbl d;
       Terminal.user_tbl := delete (User.pk u) (Terminal.user_tbl d) |}).

(** An account subsystem that refuses every deletion. *)
Definition User_delete_refuses (u : User.t) : M Terminal.Database unit :=
  raise (RaisedBy "users" "PermissionDenied").

(** Storage tables with one backend each, and the settings' defaults. *)
Definition CommandStorage
    : list (StorageMixin.Storage (list (string * string))) :=
  [ {| StorageMixin.storage_name := "elastic";
       StorageMixin.storage_config := [("TYPE", "es")] |} ].

Definition ReplayStorage
    : list (StorageMixin.Storage (list (string * string))) :=
  [ {| StorageMixin.storage_name := "bucket";
       StorageMixin.storage_config := [("TYPE", "s3")] |} ].

(** Two backends named "default", with different configurations. *)
Definition default_storage : StorageMixin.Storage (list (string * string)) :=
  {| StorageMixin.storage_name := "default";
     StorageMixin.storage_config := [("TYPE", "null")] |}.

Definition default_storage_later
    : StorageMixin.Storage (list (string * string)) :=
  {| StorageMixin.storage_name := "default";
     StorageMixin.storage_config := [("TYPE", "s3")] |}.

Definition settings : StorageMixin.Settings (list (string * string)) :=
  {| StorageMixin.DEFAULT_TERMINAL_COMMAND_STORAGE := [("TYPE", "server")];
     StorageMixin.DEFAULT_TERMINAL_REPLAY_STORAGE := [("TYPE", "server")] |}.

(** Settings with one attribute outside the TERMINAL namespace and two
    inside, one of them the stale TERMINAL_COMMAND_STORAGE. *)
Definition terminal_settings : Terminal.Settings (list (string * string)) :=
  {| Terminal.dir_settings :=
       [ ("DEBUG", [("value", "False")]);
         ("TERMINAL_ASSET_LIST_PAGE_SIZE", [("value", "auto")]);
         ("TERMINAL_COMMAND_STORAGE", [("TYPE", "stale")]) ];
     Terminal.storage_defaults := settings;
     Terminal.SECURITY_MAX_IDLE_TIME := [("value", "30")];
     Terminal.SECURITY_SESSION_SHARE := [("value", "True")] |}.

(** Platform protocols before migration 0121: a linux platform with two
    ssh rows that enable sftp, a linux platform that has sftp already, a
    linux platform whose ssh row does not enable sftp, and a windows
    platform. *)
Definition linux : migration_0121.Platform :=
  {| migration_0121.platform_id := 1%nat;
     migration_0121.platform_name := "Linux";
     migration_0121.platform_type := "linux" |}.

Definition gateway : migration_0121.Platform :=
  {| migration_0121.platform_id := 2%nat;
     migration_0121.platform_name := "Gateway";
     migration_0121.platform_type := "linux" |}.

Definition unix : migration_0121.Platform :=
  {| migration_0121.platform_id := 3%nat;
     migration_0121.platform_name := "Unix";
     migration_0121.platform_type := "linux" |}.

Definition windows : migration_0121.Platform :=
  {| migration_0121.platform_id := 4%nat;
     migration_0121.platform_name := "Windows";
     migration_0121.platform_type := "windows" |}.

Definition platform_protocol (n : string) (po : Z)
    (s : gmap string pyval) (pl : migration_0121.Platform)
    : migration_0121.PlatformProtocol :=
  {| migration_0121.name := n; migration_0121.port := po;
     migration_0121.primary := true; migration_0121.required := false;
     migration_0121.default := false; migration_0121.public := true;
     migration_0121.setting := s; migration_0121.platform := pl |}.

Definition platform_protocols : list migration_0121.PlatformProtocol :=
  [ platform_protocol "ssh" 22
      {[ "sftp_enabled" := PyBool true; "sftp_home" := PyStr "/home" ]} linux;
    platform_protocol "ssh" 2222 {[ "sftp_enabled" := PyBool true ]} linux;
    platform_protocol "ssh" 22 {[ "sftp_enabled" := PyBool true ]} gateway;
    platform_protocol "sftp" 22 ∅ gateway;
    platform_protocol "ssh" 22 {[ "sftp_enabled" := PyBool false ]} unix;
    platform_protocol "ssh" 22 {[ "sftp_enabled" := PyBool true ]} windows ].

(** The row the migration adds for the linux platform. *)
Definition linux_sftp : migration_0121.PlatformProtocol :=
  {| migration_0121.name := "sftp"; migration_0121.port := 2222;
     migration_0121.primary := false; migration_0121.required := false;
     migration_0121.default := true; migration_0121.public := true;
     migration_0121.setting := {[ "sftp_home" := PyStr "/tmp" ]};
     migration_0121.platform := linux |}.

Definition before_migration : migration_0121.State :=
  {| migration_0121.rows := platform_protocols;
     migration_0121.stdout := [] |}.

(** A catalog holding ssh/22 as a row that is not builtin. *)
Definition custom_catalog : list Protocol.t :=
  [ {| Protocol.pk := 1%nat; Protocol.name := "ssh"; Protocol.port := 22;
       Protocol.builtin := false |} ].

(** A database with ssh/22 not builtin and rdp/3389 builtin in the catalog,
    the sample terminal holding rdp/3389. *)
Definition custom_database : Terminal.Database :=
  {| Terminal.protocol_tbl :=
       custom_catalog ++
       [ {| Protocol.pk := 2%nat; Protocol.name := "rdp";
            Protocol.port := 3389; Protocol.builtin := true |} ];
     Terminal.terminal_protocols := {[ "0b1e" := {[ 2%nat ]} ]};
     Terminal.terminal_tbl := {[ "0b1e" := Terminal.to_row terminal ]};
     Terminal.user_tbl := {[ 7%nat := account ]} |}.

(** A database whose catalog holds rdp/3389 only, the sample terminal
    holding it. *)
Definition seeded_database : Terminal.Database :=
  {| Terminal.protocol_tbl :=
       [ {| Protocol.pk := 1%nat; Protocol.name := "rdp";
            Protocol.port := 3389; Protocol.builtin := true |} ];
     Terminal.terminal_protocols := {[ "0b1e" := {[ 1%nat ]} ]};
     Terminal.terminal_tbl := {[ "0b1e" := Terminal.to_row terminal ]};
     Terminal.user_tbl := {[ 7%nat := account ]} |}.

(** An entry with a name and with port 0. *)
Definition zero_port_data : Protocol.data :=
  {| Protocol.d_name := Some "ssh"; Protocol.d_port := Some 0;
     Protocol.d_builtin := Some true |}.


Definition ssh_data : Protocol.data :=
  {| Protocol.d_name := Some "ssh"; Protocol.d_port := Some 22;
     Protocol.d_builtin := Some true |}.

End Sample.


(** * Properties *)

(** ** Liveness *)

Section Liveness.

Import TerminalStatusMixin.

Lemma ALIVE_KEY_format_inj (id1 id2 : string) :
  ALIVE_KEY_format id1 = ALIVE_KEY_format id2 -> id1 = id2.
Proof. unfold ALIVE_KEY_format. intros H. by simplify_eq/=. Qed.

Lemma is_alive_set_alive (id : string) (ttl now t : Z) (c : Cache.t) :
  is_alive id t (set_alive id ttl now c) = PyBool (t <? now + ttl).
Proof.
  unfold is_alive, set_alive, Cache.get, Cache.set.
  rewrite lookup_insert_eq. unfold Cache.expired. simpl.
  destruct (Z.leb_spec (now + ttl) t), (Z.ltb_spec t (now + ttl));
    first [reflexivity | lia].
Qed.

(** A heartbeat of one terminal does not touch the flag of another. *)
Lemma is_alive_set_alive_other (id id' : string) (ttl now t : Z)
    (c : Cache.t) :
  id <> id' -> is_alive id' t (set_alive id ttl now c) = is_alive id' t c.
Proof.
  intros Hne. unfold is_alive, set_alive, Cache.get, Cache.set.
  rewrite lookup_insert_ne; [reflexivity |].
  intros Heq. by apply Hne, ALIVE_KEY_format_inj.
Qed.

(** C8. Liveness round trip: after [set_alive(ttl)] at instant [now],
    [is_alive] is true at every instant before [now + ttl] and false from
    [now + ttl] on, with no call that sets the terminal dead; the default
    ttl is 120 seconds; and [is_alive] is true exactly when the cache holds
    an unexpired true value under the terminal's key. *)
Theorem liveness_round_trip (id : string) (ttl now t : Z) (c : Cache.t) :
  (now <= t < now + ttl ->
   is_alive id t (set_alive id ttl now c) = PyBool true) /\
  (now + ttl <= t ->
   is_alive id t (set_alive id ttl now c) = PyBool false) /\
  set_alive_default id now c = set_alive id 120 now c /\
  (truthy (is_alive id t c) = true <->
   exists e, c !! ALIVE_KEY_format id = Some e /\
             Cache.expired t e = false /\ truthy (Cache.value e) = true).
Proof.
  repeat split.
  - intros [_ Hlt]. rewrite is_alive_set_alive.
    f_equal. by apply Z.ltb_lt.
  - intros Hge. rewrite is_alive_set_alive.
    f_equal. apply Z.ltb_ge. lia.
  - unfold is_alive, Cache.get.
    destruct (c !! ALIVE_KEY_format id) as [e|] eqn:Hc; [|discriminate].
    destruct (Cache.expired t e) eqn:He; [discriminate|].
    intros Hv. by exists e.
  - intros (e & Hc & He & Hv). unfold is_alive, Cache.get.
    by rewrite Hc, He.
Qed.

Lemma liveness_round_trip_witness :
  is_alive "0b1e" 0 (set_alive "0b1e" 1 0 ∅) = PyBool true /\
  is_alive "0b1e" 1 (set_alive "0b1e" 1 0 ∅) = PyBool false.
Proof.
  split.
  - apply (liveness_round_trip "0b1e" 1 0 0 ∅). lia.
  - apply (liveness_round_trip "0b1e" 1 0 1 ∅). lia.
Defined.

End Liveness.

(** ** Storage fallback *)

Section Storage.

Import StorageMixin.

Context {Config : Type}.

Lemma objects_filter_name_first_None (n : string)
    (tbl : list (Storage Config)) :
  (forall s, s ∈ tbl -> storage_name s <> n) ->
  objects_filter_name_first n tbl = None.
Proof.
  intros Hno. unfold objects_filter_name_first.
  induction tbl as [|s tbl IH]; [reflexivity|].
  rewrite filter_cons. destruct (decide (storage_name s = n)) as [Heq|Hne].
  - exfalso. by apply (Hno s); [left|].
  - apply IH. intros s' Hs'. apply Hno. by right.
Qed.

(** C7. A terminal whose command-storage name matches no row of the
    command-storage table gets the settings' default command-storage
    configuration itself; likewise for replay storage. Both functions are
    total: no exception is raised. *)
Theorem storage_fallback (self : Terminal.t)
    (CommandStorage ReplayStorage : list (Storage Config))
    (settings : Settings Config) :
  ((forall s, s ∈ CommandStorage ->
      storage_name s <> Terminal.command_storage self) ->
   get_command_storage_config (Terminal.command_storage self)
     CommandStorage settings
   = DEFAULT_TERMINAL_COMMAND_STORAGE settings) /\
  ((forall s, s ∈ ReplayStorage ->
      storage_name s <> Terminal.replay_storage self) ->
   get_replay_storage_config (Terminal.replay_storage self)
     ReplayStorage settings
   = DEFAULT_TERMINAL_REPLAY_STORAGE settings).
Proof.
  split; intros Hno.
  - unfold get_command_storage_config, get_command_storage.
    by rewrite objects_filter_name_first_None.
  - unfold get_replay_storage_config, get_replay_storage.
    by rewrite objects_filter_name_first_None.
Qed.

End Storage.

Lemma storage_fallback_witness :
  StorageMixin.get_command_storage_config "es"
    Sample.CommandStorage Sample.settings = [("TYPE", "server")] /\
  StorageMixin.get_replay_storage_config "s3"
    Sample.ReplayStorage Sample.settings = [("TYPE", "server")].
Proof.
  split.
  - apply (storage_fallback Sample.orphan_terminal
             Sample.CommandStorage Sample.ReplayStorage Sample.settings).
    intros s Hs. apply list_elem_of_singleton in Hs. by subst.
  - apply (storage_fallback Sample.orphan_terminal
             Sample.CommandStorage Sample.ReplayStorage Sample.settings).
    intros s Hs. apply list_elem_of_singleton in Hs. by subst.
Defined.

(** ** The status text *)

Section Status.

Import Terminal.

Lemma is_active_false_iff (self : t) :
  is_active self = false <->
  user self = None \/
  exists u, user self = Some u /\ User.is_active u = false.
Proof.
  unfold is_active. destruct (user self) as [u|]; simpl.
  - unfold truthy, User.user_truthy, bool_truthy. simpl.
    destruct (User.is_active u) eqn:Hu; split.
    + discriminate.
    + intros [?|(u' & ? & ?)]; [discriminate | congruence].
    + intros _. right. by exists u.
    + reflexivity.
  - split; [by left | reflexivity].
Qed.

(** C1. The status is decided in strict priority order: a terminal that is
    not accepted reads "NotAccept"; otherwise a deleted one reads "Deleted";
    otherwise one whose account is absent or disabled reads "Disable";
    otherwise one whose liveness flag is not set reads "Offline"; otherwise
    it reads "Active". [__str__] is the name, ": " and that status. A
    terminal that is not accepted, deleted, disabled and offline reads
    "NotAccept". *)
Theorem status_priority (self : t) (now : Z) (cache : Cache.t) :
  (is_accepted self = false -> status self now cache = "NotAccept") /\
  (is_accepted self = true -> is_deleted self = true ->
   status self now cache = "Deleted") /\
  (is_accepted self = true -> is_deleted self = false ->
   (user self = None \/
    exists u, user self = Some u /\ User.is_active u = false) ->
   status self now cache = "Disable") /\
  (is_accepted self = true -> is_deleted self = false ->
   (exists u, user self = Some u /\ User.is_active u = true) ->
   truthy (is_alive self now cache) = false ->
   status self now cache = "Offline") /\
  (is_accepted self = true -> is_deleted self = false ->
   (exists u, user self = Some u /\ User.is_active u = true) ->
   truthy (is_alive self now cache) = true ->
   status self now cache = "Active") /\
  __str__ self now cache = name self +:+ ": " +:+ status self now cache.
Proof.
  assert (Hact : (exists u, user self = Some u /\ User.is_active u = true) ->
                 is_active self = true).
  { intros (u & Hu & Ha). destruct (is_active self) eqn:E; [reflexivity|].
    apply is_active_false_iff in E as [E|(u' & E & Hd)]; congruence. }
  unfold status. repeat split.
  - by intros ->.
  - by intros -> ->.
  - intros -> -> Hd. apply is_active_false_iff in Hd. by rewrite Hd.
  - intros -> -> Hu Hoff. by rewrite (Hact Hu), Hoff.
  - intros -> -> Hu Hon. by rewrite (Hact Hu), Hon.
Qed.

Lemma status_priority_witness :
  status Sample.rejected_terminal 0 ∅ = "NotAccept" /\
  status Sample.terminal 60
    (TerminalStatusMixin.set_alive_default "0b1e" 0 ∅) = "Active" /\
  status Sample.terminal 120
    (TerminalStatusMixin.set_alive_default "0b1e" 0 ∅) = "Offline".
Proof.
  split; [|split].
  - by apply (status_priority Sample.rejected_terminal 0 ∅).
  - apply (status_priority Sample.terminal 60
             (TerminalStatusMixin.set_alive_default "0b1e" 0 ∅));
      [reflexivity | reflexivity | | reflexivity].
    exists Sample.account. by split.
  - apply (status_priority Sample.terminal 120
             (TerminalStatusMixin.set_alive_default "0b1e" 0 ∅));
      [reflexivity | reflexivity | | reflexivity].
    exists Sample.account. by split.
Defined.

End Status.

(** ** Default protocol data *)

Section DefaultData.

Variable mapper : gmap string (list const.ProtocolName).

Lemma get_default_protocols_data_unmapped {S} (ttype : string) (s : S) :
  mapper !! ttype = None ->
  Protocol.get_default_protocols_data mapper ttype s
  = (Raises (AssertionError ("No support terminal type: " +:+ ttype)), s).
Proof.
  intros Hno. unfold Protocol.get_default_protocols_data, bind.
  rewrite Hno. by rewrite bool_decide_eq_false_2 by by intros [? ?].
Qed.

Lemma get_default_protocols_data_mapped {S} (ttype : string) (s : S)
    (ps : list const.ProtocolName) :
  mapper !! ttype = Some ps ->
  Protocol.get_default_protocols_data mapper ttype s
  = (Returns
       ((fun p => {| Protocol.d_name := Some (const.name p);
                     Protocol.d_port := Some (const.default_port p);
                     Protocol.d_builtin := Some true |}) <$> ps), s).
Proof.
  intros Hps. unfold Protocol.get_default_protocols_data, bind.
  rewrite Hps. by rewrite bool_decide_eq_true_2 by by eexists.
Qed.

(** C6. [get_default_protocols_data] raises exactly when the terminal type
    has no entry in the mapper, and then it is the assertion's error with
    the type in its message; for a mapped type it returns, per supported
    protocol and in order, the entry of its name, its default port and
    builtin true. The error reaches the callers: [get_default_protocols]
    and [reset_protocols_to_default] raise it and change nothing. *)
Theorem default_protocols_data_spec {S} (ttype : string) (s : S) :
  ((exists e, Protocol.get_default_protocols_data mapper ttype s
              = (Raises e, s))
   <-> mapper !! ttype = None) /\
  (mapper !! ttype = None ->
   Protocol.get_default_protocols_data mapper ttype s
   = (Raises (AssertionError ("No support terminal type: " +:+ ttype)), s)) /\
  (forall ps, mapper !! ttype = Some ps ->
   Protocol.get_default_protocols_data mapper ttype s
   = (Returns
        ((fun p => {| Protocol.d_name := Some (const.name p);
                      Protocol.d_port := Some (const.default_port p);
                      Protocol.d_builtin := Some true |}) <$> ps), s)) /\
  (mapper !! ttype = None ->
   (forall tbl,
      Protocol.get_default_protocols mapper ttype tbl
      = (Raises (AssertionError ("No support terminal type: " +:+ ttype)),
         tbl)) /\
   (forall env, Terminal.type (Terminal.self env) = ttype ->
      Terminal.reset_protocols_to_default mapper env
      = (Raises (AssertionError ("No support terminal type: " +:+ ttype)),
         env))).
Proof.
  split; [|split; [|split]].
  - split.
    + intros [e He]. destruct (mapper !! ttype) as [ps|] eqn:Hm; [|done].
      by rewrite (get_default_protocols_data_mapped _ _ ps) in He.
    + intros Hno. eexists. by apply get_default_protocols_data_unmapped.
  - apply get_default_protocols_data_unmapped.
  - intros ps. apply get_default_protocols_data_mapped.
  - intros Hno. split.
    + intros tbl. unfold Protocol.get_default_protocols, bind.
      by rewrite get_default_protocols_data_unmapped.
    + intros [self d] Hty. simpl in Hty.
      unfold Terminal.reset_protocols_to_default, bind, get_state,
        Terminal.on_db, Terminal.on_protocol_tbl,
        Protocol.get_default_protocols. simpl.
      unfold bind. rewrite Hty.
      rewrite get_default_protocols_data_unmapped by done. simpl.
      by destruct d.
Qed.

End DefaultData.

Lemma default_protocols_data_spec_witness :
  Protocol.get_default_protocols_data Sample.mapper "koko" tt
  = (Returns [Sample.ssh_data], tt) /\
  Protocol.get_default_protocols_data Sample.mapper "telnetd" tt
  = (Raises (AssertionError "No support terminal type: telnetd"), tt).
Proof.
  split.
  - destruct (default_protocols_data_spec Sample.mapper "koko" tt)
      as (_ & _ & Hmapped & _).
    by apply (Hmapped [Sample.ssh]).
  - destruct (default_protocols_data_spec Sample.mapper "telnetd" tt)
      as (_ & Hunmapped & _).
    by apply Hunmapped.
Defined.

(** ** Soft delete *)

Section Delete.

Import Terminal.

Variable User_delete : User.t -> M Database unit.

(** Runs the assignments and the [save] that end [delete]. *)
Ltac run_tail :=
  cbv [bind modify setattr_user setattr_is_deleted save
       state_after outcome_of] in *;
  simpl in *.

(** [delete] when the terminal has an account: the account's deletion runs
    first, on the database as it is. *)
Lemma delete_with_account (env : Env) (u : User.t) :
  user (self env) = Some u ->
  delete User_delete env =
  match User_delete u (db env) with
  | (Returns _, d1) =>
      (setattr_user None ;;; setattr_is_deleted true ;;; save)
        {| self := self env; db := d1 |}
  | (Raises e, d1) => (Raises e, {| self := self env; db := d1 |})
  end.
Proof.
  intros Hu. unfold delete. unfold bind at 1. unfold get_state.
  rewrite Hu. unfold bind at 1. unfold on_db, outcome_of, state_after.
  simpl. by destruct (User_delete u (db env)) as [[[]|e] d1].
Qed.

Lemma delete_without_account (env : Env) :
  user (self env) = None ->
  delete User_delete env =
  (setattr_user None ;;; setattr_is_deleted true ;;; save) env.
Proof.
  intros Hu. unfold delete. unfold bind at 1. unfold get_state.
  rewrite Hu. reflexivity.
Qed.

(** However [delete] got past the account, it ends the same way. *)
Lemma delete_returns_inv (env : Env) :
  outcome_of (delete User_delete env) = Returns tt ->
  exists d1 : Database,
    delete User_delete env =
    (setattr_user None ;;; setattr_is_deleted true ;;; save)
      {| self := self env; db := d1 |} /\
    match user (self env) with
    | Some u => User_delete u (db env) = (Returns tt, d1)
    | None => d1 = db env
    end.
Proof.
  intros Hok. destruct (user (self env)) as [u|] eqn:Hu.
  - rewrite (delete_with_account env u Hu) in Hok |- *.
    destruct (User_delete u (db env)) as [[[]|e] d1] eqn:Hdel;
      [|discriminate].
    by exists d1.
  - rewrite (delete_without_account env Hu). exists (db env).
    split; [by destruct env | done].
Qed.

(** C3. When the terminal has an account and the account's deletion raises,
    [delete] raises the same exception; the instance is as it was (its
    deletion flag and its account unchanged) and the database is as the
    failed account deletion left it: [delete] has written nothing. If the
    account deletion left the database as it was, nothing changed at all. *)
Theorem delete_account_failure (env : Env) (u : User.t) (e : Exception)
    (d1 : Database) :
  user (self env) = Some u ->
  User_delete u (db env) = (Raises e, d1) ->
  outcome_of (delete User_delete env) = Raises e /\
  self (state_after (delete User_delete env)) = self env /\
  is_deleted (self (state_after (delete User_delete env)))
  = is_deleted (self env) /\
  user (self (state_after (delete User_delete env))) = Some u /\
  db (state_after (delete User_delete env)) = d1 /\
  (d1 = db env -> delete User_delete env = (Raises e, env)).
Proof.
  intros Hu Hfail. rewrite (delete_with_account env u Hu), Hfail. simpl.
  repeat split; try done.
  intros ->. by destruct env.
Qed.

(** C4. When [delete] succeeds: if the terminal had an account, the
    account's deletion ran and succeeded; afterwards the instance has no
    account and its deletion flag is true, and the terminal's row, written
    to the database the account deletion left, says the same. *)
Theorem delete_success (env : Env) :
  outcome_of (delete User_delete env) = Returns tt ->
  let env' := state_after (delete User_delete env) in
  (forall u, user (self env) = Some u ->
     exists d1, User_delete u (db env) = (Returns tt, d1) /\
       protocol_tbl (db env') = protocol_tbl d1 /\
       terminal_protocols (db env') = terminal_protocols d1 /\
       user_tbl (db env') = user_tbl d1 /\
       terminal_tbl (db env')
       = <[id (self env) := to_row (self env')]> (terminal_tbl d1)) /\
  user (self env') = None /\
  is_deleted (self env') = true /\
  id (self env') = id (self env) /\
  terminal_tbl (db env') !! id (self env) = Some (to_row (self env')) /\
  row_user_id (to_row (self env')) = None /\
  row_is_deleted (to_row (self env')) = true.
Proof.
  intros Hok env'. subst env'.
  destruct (delete_returns_inv env Hok) as (d1 & -> & Hd1).
  run_tail. split; [|by rewrite lookup_insert_eq].
  intros u Hu. rewrite Hu in Hd1. by exists d1.
Qed.

(** C10. On a terminal without an account, [delete] raises nothing and
    calls nothing of the account subsystem (whatever that subsystem is, the
    result is the same, and the accounts are untouched); the terminal ends
    with no account and the deletion flag true. A second [delete] after a
    successful one changes nothing. *)
Theorem delete_idempotent (env : Env) :
  (user (self env) = None ->
   let r := delete User_delete env in
   outcome_of r = Returns tt /\
   user (self (state_after r)) = None /\
   is_deleted (self (state_after r)) = true /\
   user_tbl (db (state_after r)) = user_tbl (db env) /\
   protocol_tbl (db (state_after r)) = protocol_tbl (db env) /\
   terminal_protocols (db (state_after r)) = terminal_protocols (db env) /\
   terminal_tbl (db (state_after r))
   = <[id (self env) := to_row (self (state_after r))]>
       (terminal_tbl (db env)) /\
   forall User_delete' : User.t -> M Database unit,
     delete User_delete' env = r) /\
  (outcome_of (delete User_delete env) = Returns tt ->
   delete User_delete (state_after (delete User_delete env))
   = (Returns tt, state_after (delete User_delete env))).
Proof.
  split.
  - intros Hu r. subst r. rewrite (delete_without_account env Hu).
    split; [done|]. run_tail. repeat split. intros User_delete'.
    unfold delete. unfold bind at 1. unfold get_state. by rewrite Hu.
  - intros Hok.
    destruct (delete_returns_inv env Hok) as (d1 & -> & _).
    rewrite delete_without_account by done.
    run_tail. by rewrite insert_insert_eq.
Qed.

End Delete.

Lemma delete_account_failure_witness :
  Terminal.delete Sample.User_delete_refuses
    {| Terminal.self := Sample.terminal; Terminal.db := Sample.database |}
  = (Raises (RaisedBy "users" "PermissionDenied"),
     {| Terminal.self := Sample.terminal; Terminal.db := Sample.database |}).
Proof.
  by apply (delete_account_failure Sample.User_delete_refuses
              {| Terminal.self := Sample.terminal;
                 Terminal.db := Sample.database |}
              Sample.account (RaisedBy "users" "PermissionDenied")
              Sample.database).
Defined.

Lemma delete_success_witness :
  let env' :=
    state_after
      (Terminal.delete Sample.User_delete_removes
         {| Terminal.self := Sample.terminal;
            Terminal.db := Sample.database |}) in
  Terminal.user (Terminal.self env') = None /\
  Terminal.is_deleted (Terminal.self env') = true.
Proof.
  assert (Hok : outcome_of
            (Terminal.delete Sample.User_delete_removes
               {| Terminal.self := Sample.terminal;
                  Terminal.db := Sample.database |}) = Returns tt)
    by reflexivity.
  destruct (delete_success Sample.User_delete_removes _ Hok)
    as (_ & Huser & Hdeleted & _).
  by split.
Defined.

Lemma delete_idempotent_witness :
  let env :=
    {| Terminal.self := Sample.orphan_terminal;
       Terminal.db := Sample.database |} in
  outcome_of (Terminal.delete Sample.User_delete_refuses env) = Returns tt /\
  Terminal.delete Sample.User_delete_refuses
    (state_after (Terminal.delete Sample.User_delete_refuses env))
  = (Returns tt,
     state_after (Terminal.delete Sample.User_delete_refuses env)).
Proof.
  intros env.
  destruct (delete_idempotent Sample.User_delete_refuses env)
    as [Hfirst Hsecond].
  destruct (Hfirst eq_refl) as (Hok & _).
  split; [exact Hok | exact (Hsecond Hok)].
Defined.

(** ** The protocol catalog *)

Section Catalog.

Import Protocol.

Implicit Types (tbl : list t) (p q : t) (n : string) (po : Z) (b : bool).

(** Under the uniqueness constraint a row is determined by its name and
    port. *)
Lemma unique_together_inj tbl p q :
  unique_together tbl -> p ∈ tbl -> q ∈ tbl ->
  unique_key p = unique_key q -> p = q.
Proof.
  unfold unique_together. induction tbl as [|a tbl IH]; intros Hnd Hp Hq Hk.
  - by apply elem_of_nil in Hp.
  - rewrite fmap_cons in Hnd. apply NoDup_cons in Hnd as [Ha Hnd].
    apply elem_of_cons in Hp as [->|Hp]; apply elem_of_cons in Hq as [->|Hq].
    + reflexivity.
    + exfalso. apply Ha. rewrite Hk. by apply list_elem_of_fmap_2.
    + exfalso. apply Ha. rewrite <- Hk. by apply list_elem_of_fmap_2.
    + by apply IH.
Qed.

Lemma unique_together_snoc tbl p :
  unique_together tbl -> unique_key p ∉ unique_key <$> tbl ->
  unique_together (tbl ++ [p]).
Proof.
  unfold unique_together. intros Hnd Hp. rewrite fmap_app. simpl.
  apply NoDup_app. split; [done|]. split; [|apply NoDup_singleton].
  intros k Hk Hk'. apply list_elem_of_singleton in Hk'. by subst.
Qed.

Lemma next_pk_fresh tbl : next_pk tbl ∉ pk <$> tbl.
Proof.
  assert (Hle : forall k, k ∈ pk <$> tbl -> (k < next_pk tbl)%nat).
  { unfold next_pk. induction tbl as [|a tbl IH]; intros k Hk.
    - by apply elem_of_nil in Hk.
    - rewrite fmap_cons in Hk. apply elem_of_cons in Hk as [->|Hk].
      + rewrite fmap_cons. cbn [foldr]. lia.
      + specialize (IH k Hk). rewrite fmap_cons. cbn [foldr]. lia. }
  intros Hin. specialize (Hle _ Hin). lia.
Qed.

(** *** The manager's calls *)

Lemma objects_get_found tbl p :
  unique_together tbl -> p ∈ tbl ->
  objects_get (name p) (port p) (builtin p) tbl = (Returns p, tbl).
Proof.
  intros Hnd Hp. unfold objects_get.
  assert (Hf : filter (fun q => name q = name p /\ port q = port p /\
                                builtin q = builtin p) tbl = [p]);
    [|by rewrite Hf].
  revert Hnd Hp. unfold unique_together.
  induction tbl as [|a tbl IH]; intros Hnd Hp.
  - by apply elem_of_nil in Hp.
  - rewrite fmap_cons in Hnd. apply NoDup_cons in Hnd as [Ha Hnd].
    apply elem_of_cons in Hp as [->|Hp].
    + rewrite filter_cons_True by done. f_equal.
      apply elem_of_nil_inv. intros q Hq.
      apply list_elem_of_filter in Hq as [(Hn & Hpo & _) Hq].
      apply Ha. apply (list_elem_of_fmap_2' _ _ q); [done|].
      unfold unique_key. by rewrite Hn, Hpo.
    + rewrite filter_cons_False; [by apply IH|].
      intros (Hn & Hpo & _). apply Ha.
      apply (list_elem_of_fmap_2' _ _ p); [done|].
      unfold unique_key. by rewrite Hn, Hpo.
Qed.

Lemma objects_get_missing tbl n po b :
  (forall q, q ∈ tbl -> name q = n -> port q = po -> builtin q <> b) ->
  objects_get n po b tbl = (Raises DoesNotExist, tbl).
Proof.
  intros Hno. unfold objects_get.
  assert (Hf : filter (fun q => name q = n /\ port q = po /\ builtin q = b)
                 tbl = []); [|by rewrite Hf].
  apply elem_of_nil_inv. intros q Hq.
  apply list_elem_of_filter in Hq as [(Hn & Hpo & Hb) Hq].
  by apply (Hno q).
Qed.

Lemma objects_create_fresh tbl n po b :
  (n, po) ∉ unique_key <$> tbl ->
  objects_create n po b tbl
  = (Returns {| pk := next_pk tbl; name := n; port := po; builtin := b |},
     tbl ++ [{| pk := next_pk tbl; name := n; port := po; builtin := b |}]).
Proof.
  intros Hno. unfold objects_create. by rewrite bool_decide_eq_false_2.
Qed.

Lemma objects_create_refused tbl n po b :
  (n, po) ∈ unique_key <$> tbl ->
  objects_create n po b tbl = (Raises IntegrityError, tbl).
Proof. intros Hin. unfold objects_create. by rewrite bool_decide_eq_true_2. Qed.

(** The row is there: it is fetched and nothing is written. *)
Lemma get_or_create_found tbl p :
  unique_together tbl -> p ∈ tbl -> builtin p = true ->
  objects_get_or_create (name p) (port p) true tbl
  = (Returns (p, false), tbl).
Proof.
  intros Hnd Hp Hb. unfold objects_get_or_create, try_except, bind.
  rewrite <- Hb at 1. by rewrite objects_get_found.
Qed.

(** No row has the name and port: a builtin row is appended. *)
Lemma get_or_create_created tbl n po :
  (n, po) ∉ unique_key <$> tbl ->
  objects_get_or_create n po true tbl
  = (Returns ({| pk := next_pk tbl; name := n; port := po;
                 builtin := true |}, true),
     tbl ++ [{| pk := next_pk tbl; name := n; port := po;
                builtin := true |}]).
Proof.
  intros Hno. unfold objects_get_or_create, try_except, bind.
  rewrite objects_get_missing.
  - by rewrite objects_create_fresh.
  - intros q Hq Hn Hpo _. apply Hno.
    apply (list_elem_of_fmap_2' _ _ q); [done|].
    unfold unique_key. by rewrite Hn, Hpo.
Qed.

(** The name and port are taken by a row that is not builtin: the insert is
    refused and the refusal is raised; nothing is written. *)
Lemma get_or_create_conflict tbl p :
  unique_together tbl -> p ∈ tbl -> builtin p = false ->
  objects_get_or_create (name p) (port p) true tbl
  = (Raises IntegrityError, tbl).
Proof.
  intros Hnd Hp Hb. unfold objects_get_or_create, try_except, bind.
  assert (Hmiss : objects_get (name p) (port p) true tbl
                  = (Raises DoesNotExist, tbl)).
  { apply objects_get_missing. intros q Hq Hn Hpo Hqb.
    assert (q = p) as ->; [|congruence].
    apply (unique_together_inj tbl); [done..|].
    unfold unique_key. by rewrite Hn, Hpo. }
  rewrite Hmiss. rewrite objects_create_refused; [by rewrite Hmiss|].
  by apply (list_elem_of_fmap_2' _ _ p).
Qed.

(** *** The loop of [get_or_create_protocols] *)

(** An entry passes the guard only with a name and a port. *)
Lemma guard_passed (d : data) :
  all [truthy (d_name d); truthy (d_port d)] = true ->
  exists n po, d_name d = Some n /\ d_port d = Some po /\
               n <> "" /\ po <> 0.
Proof.
  destruct d as [[n|] [po|] db]; simpl; try discriminate.
  - intros Hall. apply andb_true_iff in Hall as [Hn Hpo].
    exists n, po. repeat split.
    + by intros ->.
    + by intros ->.
  - by rewrite andb_false_r.
Qed.

Lemma loop_skip (d : data) (rest : list data) (acc : list t) :
  all [truthy (d_name d); truthy (d_port d)] = false ->
  get_or_create_protocols_from acc (d :: rest)
  = get_or_create_protocols_from acc rest.
Proof.
  intros Hg. simpl. change (truthy (d_name d) && (truthy (d_port d) && true))
    with (all [truthy (d_name d); truthy (d_port d)]).
  by rewrite Hg.
Qed.

Lemma loop_step (d : data) (rest : list data) (acc : list t) n po tbl :
  all [truthy (d_name d); truthy (d_port d)] = true ->
  d_name d = Some n -> d_port d = Some po ->
  get_or_create_protocols_from acc (d :: rest) tbl
  = match objects_get_or_create n po true tbl with
    | (Returns r, tbl') =>
        get_or_create_protocols_from (acc ++ [fst r]) rest tbl'
    | (Raises e, tbl') => (Raises e, tbl')
    end.
Proof.
  intros Hg Hn Hpo. simpl.
  change (truthy (d_name d) && (truthy (d_port d) && true))
    with (all [truthy (d_name d); truthy (d_port d)]).
  rewrite Hg, Hn, Hpo. reflexivity.
Qed.

(** What one entry does to a table that satisfies the constraint. *)
Lemma get_or_create_cases tbl n po :
  unique_together tbl ->
  (exists p, p ∈ tbl /\ name p = n /\ port p = po /\ builtin p = true /\
     objects_get_or_create n po true tbl = (Returns (p, false), tbl)) \/
  (exists p, name p = n /\ port p = po /\ builtin p = true /\
     (unique_key p ∉ unique_key <$> tbl) /\
     objects_get_or_create n po true tbl = (Returns (p, true), tbl ++ [p])) \/
  (exists p, p ∈ tbl /\ name p = n /\ port p = po /\ builtin p = false /\
     objects_get_or_create n po true tbl = (Raises IntegrityError, tbl)).
Proof.
  intros Hnd. destruct (decide ((n, po) ∈ unique_key <$> tbl)) as [Hin|Hno].
  - apply list_elem_of_fmap_1 in Hin as (p & Hk & Hp).
    injection Hk as -> ->. destruct (builtin p) eqn:Hb.
    + left. exists p. repeat split; try done.
      by apply get_or_create_found.
    + right. right. exists p. repeat split; try done.
      by apply get_or_create_conflict.
  - right. left. eexists. repeat split; [..|by apply get_or_create_created];
      done.
Qed.

(** After the loop the table still satisfies the constraint, it has only
    grown at its end, and running the loop again leaves it as it is. *)
Lemma loop_settles (ds : list data) :
  forall (acc : list t) tbl,
    unique_together tbl ->
    unique_together (state_after (get_or_create_protocols_from acc ds tbl)) /\
    (exists ext,
       state_after (get_or_create_protocols_from acc ds tbl) = tbl ++ ext) /\
    (forall acc',
       state_after
         (get_or_create_protocols_from acc' ds
            (state_after (get_or_create_protocols_from acc ds tbl)))
       = state_after (get_or_create_protocols_from acc ds tbl)).
Proof.
  induction ds as [|d rest IH]; intros acc tbl Hnd.
  - simpl. split; [done|]. split; [|done]. exists []. by rewrite app_nil_r.
  - destruct (all [truthy (d_name d); truthy (d_port d)]) eqn:Hg.
    + destruct (guard_passed d Hg) as (n & po & Hn & Hpo & _).
      rewrite (loop_step d rest acc n po tbl Hg Hn Hpo).
      destruct (get_or_create_cases tbl n po Hnd)
        as [(p & Hp & Hpn & Hpp & Hb & ->)
           |[(p & Hpn & Hpp & Hb & Hfresh & ->)
            |(p & Hp & Hpn & Hpp & Hb & ->)]]; simpl.
      * destruct (IH (acc ++ [p]) tbl Hnd) as (Hnd1 & [ext Hext] & Hset).
        split; [done|]. split; [by exists ext|]. intros acc'.
        rewrite (loop_step d rest acc' n po _ Hg Hn Hpo).
        rewrite <- Hpn, <- Hpp, get_or_create_found; [apply Hset|done|..|done].
        rewrite Hext. apply elem_of_app. by left.
      * assert (Hnd' : unique_together (tbl ++ [p]))
          by by apply unique_together_snoc.
        destruct (IH (acc ++ [p]) (tbl ++ [p]) Hnd')
          as (Hnd1 & [ext Hext] & Hset).
        split; [done|]. split.
        { exists ([p] ++ ext). by rewrite Hext, <- app_assoc. }
        intros acc'. rewrite (loop_step d rest acc' n po _ Hg Hn Hpo).
        rewrite <- Hpn, <- Hpp, get_or_create_found; [apply Hset|done|..|done].
        rewrite Hext. apply elem_of_app. left. apply elem_of_app. right.
        by apply list_elem_of_singleton.
      * split; [done|]. split; [exists []; by rewrite app_nil_r|].
        intros acc'. rewrite (loop_step d rest acc' n po _ Hg Hn Hpo).
        by rewrite <- Hpn, <- Hpp, get_or_create_conflict.
    + rewrite (loop_skip d rest acc Hg).
      destruct (IH acc tbl Hnd) as (Hnd1 & Hext & Hset).
      split; [done|]. split; [done|]. intros acc'.
      rewrite (loop_skip d rest acc' Hg). apply Hset.
Qed.

(** C5. On a catalog that satisfies the uniqueness constraint, calling
    [get_or_create_protocols] twice with the same entries leaves the catalog
    as calling it once does, also when a call raises; and after the call
    the catalog has no two rows with the same name and port. *)
Theorem get_or_create_protocols_idempotent (ds : list data) tbl :
  unique_together tbl ->
  state_after
    ((get_or_create_protocols ds ;;; get_or_create_protocols ds) tbl)
  = state_after (get_or_create_protocols ds tbl) /\
  state_after
    (get_or_create_protocols ds
       (state_after (get_or_create_protocols ds tbl)))
  = state_after (get_or_create_protocols ds tbl) /\
  unique_together (state_after (get_or_create_protocols ds tbl)) /\
  (forall p q, p ∈ state_after (get_or_create_protocols ds tbl) ->
     q ∈ state_after (get_or_create_protocols ds tbl) ->
     name p = name q -> port p = port q -> p = q).
Proof.
  intros Hnd. unfold get_or_create_protocols.
  destruct (loop_settles ds [] tbl Hnd) as (Hnd1 & _ & Hset).
  split; [|split; [apply Hset|split; [done|]]].
  - unfold bind.
    destruct (get_or_create_protocols_from [] ds tbl) as [[rows|e] tbl1]
      eqn:Hrun; [|done].
    apply (Hset []).
  - intros p q Hp Hq Hn Hpo. apply (unique_together_inj _ p q Hnd1 Hp Hq).
    unfold unique_key. by rewrite Hn, Hpo.
Qed.

(** Without a conflicting row the loop returns: the collected list grows by
    one row per entry that passes the guard, in order, each row with the
    entry's name and port and builtin; the table gains these rows only. *)
Lemma loop_returns (ds : list data) :
  forall (acc : list t) tbl,
    unique_together tbl ->
    (forall p d, p ∈ tbl -> d ∈ ds -> d_name d = Some (name p) ->
       d_port d = Some (port p) -> builtin p = true) ->
    exists rows tbl',
      get_or_create_protocols_from acc ds tbl = (Returns (acc ++ rows), tbl') /\
      Forall2 (fun d r => d_name d = Some (name r) /\
                          d_port d = Some (port r) /\ builtin r = true)
        (filter (fun d => all [truthy (d_name d); truthy (d_port d)] = true)
           ds) rows /\
      (forall r, r ∈ tbl' <-> r ∈ tbl \/ r ∈ rows).
Proof.
  induction ds as [|d rest IH]; intros acc tbl Hnd Hfree.
  - exists [], tbl. simpl. rewrite app_nil_r. split; [done|].
    split; [constructor|]. intros r. rewrite elem_of_nil. tauto.
  - destruct (all [truthy (d_name d); truthy (d_port d)]) eqn:Hg.
    + destruct (guard_passed d Hg) as (n & po & Hn & Hpo & _).
      rewrite (loop_step d rest acc n po tbl Hg Hn Hpo).
      rewrite filter_cons_True by done.
      destruct (get_or_create_cases tbl n po Hnd)
        as [(p & Hp & Hpn & Hpp & Hb & ->)
           |[(p & Hpn & Hpp & Hb & Hfresh & ->)
            |(p & Hp & Hpn & Hpp & Hb & _)]]; simpl.
      * destruct (IH (acc ++ [p]) tbl Hnd)
          as (rows & tbl' & Hrun & Hrows & Htbl).
        { intros q d' Hq Hd'. apply Hfree; [done | by right]. }
        exists (p :: rows), tbl'. rewrite Hrun, <- app_assoc.
        split; [done|]. split.
        { constructor; [|done]. by rewrite Hn, Hpo, Hpn, Hpp. }
        intros r. rewrite Htbl, elem_of_cons.
        split; [tauto|]. intros [?|[->|?]]; tauto.
      * destruct (IH (acc ++ [p]) (tbl ++ [p]))
          as (rows & tbl' & Hrun & Hrows & Htbl).
        { by apply unique_together_snoc. }
        { intros q d' Hq Hd'. apply elem_of_app in Hq as [Hq|Hq].
          - apply Hfree; [done | by right].
          - apply list_elem_of_singleton in Hq as ->. done. }
        exists (p :: rows), tbl'. rewrite Hrun, <- app_assoc.
        split; [done|]. split.
        { constructor; [|done]. by rewrite Hn, Hpo, Hpn, Hpp. }
        intros r.
        rewrite Htbl, elem_of_app, list_elem_of_singleton, elem_of_cons.
        tauto.
      * exfalso. assert (builtin p = true); [|congruence].
        apply (Hfree p d); [done | by left | by rewrite Hn, Hpn
                           | by rewrite Hpo, Hpp].
    + rewrite (loop_skip d rest acc Hg).
      rewrite filter_cons_False by by rewrite Hg.
      apply IH; [done|]. intros q d' Hq Hd'. apply Hfree; [done | by right].
Qed.

(** A catalog of builtin rows only, as the loop itself fills it, has no
    conflicting row, and stays one. *)
Lemma builtin_catalog_kept (ds : list data) tbl :
  unique_together tbl ->
  (forall p, p ∈ tbl -> builtin p = true) ->
  exists rows tbl',
    get_or_create_protocols ds tbl = (Returns rows, tbl') /\
    (forall p, p ∈ tbl' -> builtin p = true).
Proof.
  intros Hnd Hall.
  destruct (loop_returns ds [] tbl Hnd) as (rows & tbl' & Hrun & Hrows & Htbl).
  { intros p d Hp _ _ _. by apply Hall. }
  exists rows, tbl'. split; [done|].
  intros p Hp. apply Htbl in Hp as [Hp|Hp]; [by apply Hall|].
  apply list_elem_of_lookup_1 in Hp as [i Hi].
  by destruct (Forall2_lookup_r _ _ _ _ _ Hrows Hi) as (d & _ & _ & _ & Hb).
Qed.


End Catalog.

Lemma get_or_create_protocols_idempotent_witness :
  state_after
    (Protocol.get_or_create_protocols [Sample.ssh_data; Sample.ssh_data]
       (state_after
          (Protocol.get_or_create_protocols
             [Sample.ssh_data; Sample.ssh_data] [])))
  = [ {| Protocol.pk := 1%nat; Protocol.name := "ssh"; Protocol.port := 22;
         Protocol.builtin := true |} ].
Proof.
  destruct (get_or_create_protocols_idempotent
              [Sample.ssh_data; Sample.ssh_data] [])
    as (_ & Htwice & _).
  - apply NoDup_nil_2.
  - rewrite Htwice. reflexivity.
Defined.


(** A row that is not builtin under an entry's name and port: the store
    refuses the insert and the refusal is raised. *)
Lemma get_or_create_protocols_conflict :
  Protocol.get_or_create_protocols [Sample.ssh_data] Sample.custom_catalog
  = (Raises IntegrityError, Sample.custom_catalog).
Proof. reflexivity. Qed.


(** ** Resetting a terminal's protocols *)

Section Reset.

Import Terminal.

Variable mapper : gmap string (list const.ProtocolName).

Lemma default_data_pass_guard (ps : list const.ProtocolName) :
  Forall (fun p => const.name p <> "" /\ const.default_port p <> 0) ps ->
  filter (fun d => all [truthy (Protocol.d_name d);
                        truthy (Protocol.d_port d)] = true)
    ((fun p => {| Protocol.d_name := Some (const.name p);
                  Protocol.d_port := Some (const.default_port p);
                  Protocol.d_builtin := Some true |}) <$> ps)
  = (fun p => {| Protocol.d_name := Some (const.name p);
                 Protocol.d_port := Some (const.default_port p);
                 Protocol.d_builtin := Some true |}) <$> ps.
Proof.
  induction 1 as [|p ps [Hn Hpo] _ IH]; [done|].
  rewrite fmap_cons, filter_cons_True; [by rewrite IH|]. simpl.
  destruct (const.name p) as [|a n]; [by destruct Hn|].
  cbv [truthy option_truthy str_truthy int_truthy]. simpl.
  by destruct (Z.eqb_spec (const.default_port p) 0).
Qed.

(** The default protocols of a mapped type, on a catalog without a
    conflicting row: one builtin row per supported protocol. *)
Lemma get_default_protocols_returns (ttype : string)
    (ps : list const.ProtocolName) (tbl : list Protocol.t) :
  mapper !! ttype = Some ps ->
  Forall (fun p => const.name p <> "" /\ const.default_port p <> 0) ps ->
  Protocol.unique_together tbl ->
  (forall r p, r ∈ tbl -> p ∈ ps -> Protocol.name r = const.name p ->
     Protocol.port r = const.default_port p -> Protocol.builtin r = true) ->
  exists rows tbl',
    Protocol.get_default_protocols mapper ttype tbl = (Returns rows, tbl') /\
    Forall2 (fun p r => Protocol.name r = const.name p /\
                        Protocol.port r = const.default_port p /\
                        Protocol.builtin r = true) ps rows /\
    (forall r, r ∈ tbl' <-> r ∈ tbl \/ r ∈ rows) /\
    Protocol.unique_together tbl'.
Proof.
  intros Hps Hvalid Hnd Hfree.
  unfold Protocol.get_default_protocols, bind.
  rewrite (get_default_protocols_data_mapped mapper ttype tbl ps Hps).
  unfold Protocol.get_or_create_protocols.
  edestruct (loop_returns) as (rows & tbl' & Hrun & Hrows & Htbl);
    [exact Hnd| |].
  2: { exists rows, tbl'. rewrite Hrun. split; [done|].
       rewrite default_data_pass_guard in Hrows by done.
       apply Forall2_fmap_l in Hrows. split; [|split; [done|]].
       - eapply Forall2_impl; [exact Hrows|]. simpl.
         intros p r (Hn & Hpo & Hb). by simplify_eq.
       - edestruct (loop_settles) as (Hnd' & _); [exact Hnd|].
         by erewrite Hrun in Hnd'. }
  intros r d Hr Hd Hn Hpo.
  apply list_elem_of_fmap_1 in Hd as (p & -> & Hp). simpl in Hn, Hpo.
  apply (Hfree r p); [done..| |]; by simplify_eq.
Qed.

(** The reset where the catalog has no conflicting row. For a terminal
    whose type is mapped to protocols with a non-empty name and a non-zero
    default port, on a
    catalog that satisfies the uniqueness constraint and has no row that is
    not builtin under a default's name and port: the reset returns, and the
    terminal's protocols become exactly the catalog's builtin rows of the
    default names and ports, one per default, whatever it held before;
    the instance, the other tables and the other terminals' protocols are
    as they were. *)
Theorem reset_protocols_to_default_spec (env : Env)
    (ps : list const.ProtocolName) :
  mapper !! type (self env) = Some ps ->
  Forall (fun p => const.name p <> "" /\ const.default_port p <> 0) ps ->
  Protocol.unique_together (protocol_tbl (db env)) ->
  (forall r p, r ∈ protocol_tbl (db env) -> p ∈ ps ->
     Protocol.name r = const.name p ->
     Protocol.port r = const.default_port p -> Protocol.builtin r = true) ->
  let env' := state_after (reset_protocols_to_default mapper env) in
  outcome_of (reset_protocols_to_default mapper env) = Returns tt /\
  (exists rows,
     Protocol.get_default_protocols mapper (type (self env))
       (protocol_tbl (db env))
     = (Returns rows, protocol_tbl (db env')) /\
     Forall2 (fun p r => Protocol.name r = const.name p /\
                         Protocol.port r = const.default_port p /\
                         Protocol.builtin r = true /\
                         r ∈ protocol_tbl (db env')) ps rows /\
     protocols env' = list_to_set (Protocol.pk <$> rows)) /\
  (forall k, k ∈ protocols env' <->
     exists r p, r ∈ protocol_tbl (db env') /\ p ∈ ps /\
       Protocol.pk r = k /\ Protocol.name r = const.name p /\
       Protocol.port r = const.default_port p /\
       Protocol.builtin r = true) /\
  Protocol.unique_together (protocol_tbl (db env')) /\
  self env' = self env /\
  terminal_tbl (db env') = terminal_tbl (db env) /\
  user_tbl (db env') = user_tbl (db env) /\
  (forall other, other <> id (self env) ->
     terminal_protocols (db env') !! other
     = terminal_protocols (db env) !! other).
Proof.
  intros Hps Hvalid Hnd Hfree env'.
  destruct (get_default_protocols_returns (type (self env)) ps
              (protocol_tbl (db env)) Hps Hvalid Hnd Hfree)
    as (rows & tbl' & Hrun & Hrows & Htbl & Hnd').
  assert (Hreset : reset_protocols_to_default mapper env =
    (Returns tt,
     {| self := self env;
        db := {| protocol_tbl := tbl';
                 terminal_protocols :=
                   <[id (self env) := list_to_set (Protocol.pk <$> rows)]>
                     (terminal_protocols (db env));
                 terminal_tbl := terminal_tbl (db env);
                 user_tbl := user_tbl (db env) |} |})).
  { unfold reset_protocols_to_default, bind, get_state, on_db,
      on_protocol_tbl. simpl. by rewrite Hrun. }
  subst env'. rewrite Hreset. simpl.
  assert (Hheld : protocols
     {| self := self env;
        db := {| protocol_tbl := tbl';
                 terminal_protocols :=
                   <[id (self env) := list_to_set (Protocol.pk <$> rows)]>
                     (terminal_protocols (db env));
                 terminal_tbl := terminal_tbl (db env);
                 user_tbl := user_tbl (db env) |} |}
     = list_to_set (Protocol.pk <$> rows)).
  { unfold protocols. simpl. by rewrite lookup_insert_eq. }
  assert (Hin : forall r, r ∈ rows -> r ∈ tbl')
    by (intros r; rewrite Htbl; tauto).
  assert (Hrows' : Forall2 (fun p r => Protocol.name r = const.name p /\
                         Protocol.port r = const.default_port p /\
                         Protocol.builtin r = true /\ r ∈ tbl') ps rows).
  { clear -Hrows Hin. induction Hrows as [|p r ps rows (?&?&?) _ IH];
      constructor.
    - repeat split; try done. apply Hin. by left.
    - apply IH. intros r' Hr'. apply Hin. by right. }
  split; [done|]. split; [by exists rows|]. split.
  - intros k. rewrite Hheld, elem_of_list_to_set. split.
    + intros Hk. apply list_elem_of_fmap_1 in Hk as (r & -> & Hr).
      apply list_elem_of_lookup_1 in Hr as [i Hi].
      destruct (Forall2_lookup_r _ _ _ _ _ Hrows' Hi)
        as (p & Hp & Hn & Hpo & Hb & Hr).
      exists r, p. repeat split; try done.
      by apply list_elem_of_lookup_2 in Hp.
    + intros (r & p & Hr & Hp & <- & Hn & Hpo & Hb).
      apply list_elem_of_lookup_1 in Hp as [i Hi].
      destruct (Forall2_lookup_l _ _ _ _ _ Hrows' Hi)
        as (r0 & Hr0 & Hn0 & Hpo0 & Hb0 & Hr0').
      assert (r = r0) as ->.
      { apply (unique_together_inj tbl'); [done..|].
        unfold Protocol.unique_key. congruence. }
      apply list_elem_of_fmap_2. by apply list_elem_of_lookup_2 in Hr0.
  - repeat split; try done.
    intros other Hother. by rewrite lookup_insert_ne.
Qed.

End Reset.

(** C2. The reset of a terminal of a mapped type must leave it with exactly
    the defaults of its type; here the code does not. The sample terminal
    is of the mapped type "koko", whose only default is ssh/22, and holds
    rdp/3389; the catalog has ssh/22 as a row that is not builtin. The
    lookup by name, port and builtin misses that row, the insert is refused
    on name and port, and the reset raises the refusal: the terminal still
    holds rdp/3389, which is no default of its type. *)
Lemma reset_protocols_to_default_conflict :
  let env := {| Terminal.self := Sample.terminal;
                Terminal.db := Sample.custom_database |} in
  Sample.mapper !! Terminal.type (Terminal.self env) = Some [Sample.ssh] /\
  Terminal.reset_protocols_to_default Sample.mapper env
  = (Raises IntegrityError, env) /\
  Terminal.protocols
    (state_after (Terminal.reset_protocols_to_default Sample.mapper env))
  = {[ 2%nat ]}.
Proof. by repeat split. Qed.

(** On the seeded sample database the terminal held rdp/3389 (key 1); after
    the reset it holds the new ssh/22 row (key 2) and nothing else. *)
Lemma reset_protocols_to_default_sample :
  Terminal.protocols
    (state_after
       (Terminal.reset_protocols_to_default Sample.mapper
          {| Terminal.self := Sample.terminal;
             Terminal.db := Sample.seeded_database |}))
  = {[ 2%nat ]}.
Proof. reflexivity. Qed.

Lemma reset_protocols_to_default_spec_witness :
  let env := {| Terminal.self := Sample.terminal;
                Terminal.db := Sample.seeded_database |} in
  outcome_of (Terminal.reset_protocols_to_default Sample.mapper env)
  = Returns tt /\
  Protocol.unique_together
    (Terminal.protocol_tbl
       (Terminal.db
          (state_after
             (Terminal.reset_protocols_to_default Sample.mapper env)))).
Proof.
  intros env.
  destruct (reset_protocols_to_default_spec Sample.mapper env [Sample.ssh])
    as (Hok & _ & _ & Hnd & _).
  - reflexivity.
  - repeat constructor; discriminate.
  - apply NoDup_singleton.
  - intros r p Hr Hp.
    apply list_elem_of_singleton in Hr as ->.
    apply list_elem_of_singleton in Hp as ->. discriminate.
  - by split.
Defined.

(** * Further properties *)

(** ** Heartbeats *)

Section Heartbeats.

Import TerminalStatusMixin.

(** X1. Terminals do not share a liveness flag: a heartbeat of one
    terminal, with a ttl or with the default, leaves what [is_alive] gives
    for any other terminal as it was, at every instant. *)
Theorem set_alive_other_terminals (id id' : string) (ttl now t : Z)
    (c : Cache.t) :
  id <> id' ->
  is_alive id' t (set_alive id ttl now c) = is_alive id' t c /\
  is_alive id' t (set_alive_default id now c) = is_alive id' t c.
Proof.
  intros Hne. split; [|unfold set_alive_default];
    by apply is_alive_set_alive_other.
Qed.

Lemma set_alive_other_terminals_witness :
  is_alive "77aa" 5 (set_alive "0b1e" 120 0 ∅) = is_alive "77aa" 5 ∅.
Proof. by apply (set_alive_other_terminals "0b1e" "77aa" 120 0 5 ∅). Defined.

(** X2. The latest heartbeat alone decides: after two heartbeats the terminal
    is alive exactly before the deadline of the second, whether that is
    later or earlier than the deadline of the first, and the cache is as
    after the second alone. *)
Theorem set_alive_latest_wins (id : string) (ttl1 now1 ttl2 now2 t : Z)
    (c : Cache.t) :
  is_alive id t (set_alive id ttl2 now2 (set_alive id ttl1 now1 c))
  = PyBool (t <? now2 + ttl2) /\
  set_alive id ttl2 now2 (set_alive id ttl1 now1 c) = set_alive id ttl2 now2 c.
Proof.
  split; [apply is_alive_set_alive|].
  unfold set_alive, Cache.set. apply insert_insert_eq.
Qed.

(** X3. A heartbeat with a ttl of zero or less marks the terminal as not alive
    from that instant on, also when an earlier heartbeat had not expired. *)
Theorem set_alive_nonpositive_ttl (id : string) (ttl now t : Z)
    (c : Cache.t) :
  ttl <= 0 -> now <= t ->
  is_alive id t (set_alive id ttl now c) = PyBool false.
Proof.
  intros Httl Ht. rewrite is_alive_set_alive. f_equal. apply Z.ltb_ge. lia.
Qed.

Lemma set_alive_nonpositive_ttl_witness :
  is_alive "0b1e" 10 (set_alive "0b1e" 120 0 ∅) = PyBool true /\
  is_alive "0b1e" 10 (set_alive "0b1e" 0 10 (set_alive "0b1e" 120 0 ∅))
  = PyBool false.
Proof.
  split; [reflexivity|].
  apply (set_alive_nonpositive_ttl "0b1e" 0 10 10); lia.
Defined.

End Heartbeats.

(** ** Storage that resolves *)

Section StorageResolves.

Import StorageMixin.

Context {Config : Type}.

Lemma objects_filter_name_first_Some (n : string)
    (pre post : list (Storage Config)) (r : Storage Config) :
  (forall s, s ∈ pre -> storage_name s <> n) ->
  storage_name r = n ->
  objects_filter_name_first n (pre ++ r :: post) = Some r.
Proof.
  intros Hpre Hr. unfold objects_filter_name_first.
  induction pre as [|s pre IH]; simpl.
  - by rewrite filter_cons_True.
  - rewrite filter_cons_False by (apply Hpre; by left).
    apply IH. intros s' Hs'. apply Hpre. by right.
Qed.

(** X4. When rows of the storage table have the terminal's storage name, the
    configuration of the first of them is returned, not the settings'
    default; for command storage and for replay storage alike. *)
Theorem storage_resolves (self : Terminal.t)
    (pre post : list (Storage Config)) (r : Storage Config)
    (settings : Settings Config) :
  ((forall s, s ∈ pre -> storage_name s <> Terminal.command_storage self) ->
   storage_name r = Terminal.command_storage self ->
   get_command_storage_config (Terminal.command_storage self)
     (pre ++ r :: post) settings = storage_config r) /\
  ((forall s, s ∈ pre -> storage_name s <> Terminal.replay_storage self) ->
   storage_name r = Terminal.replay_storage self ->
   get_replay_storage_config (Terminal.replay_storage self)
     (pre ++ r :: post) settings = storage_config r).
Proof.
  split; intros Hpre Hr.
  - unfold get_command_storage_config, get_command_storage.
    by rewrite objects_filter_name_first_Some.
  - unfold get_replay_storage_config, get_replay_storage.
    by rewrite objects_filter_name_first_Some.
Qed.

End StorageResolves.

Lemma storage_resolves_witness :
  StorageMixin.get_command_storage_config "default"
    (Sample.CommandStorage ++ Sample.default_storage :: Sample.CommandStorage
       ++ [Sample.default_storage_later])
    Sample.settings
  = [("TYPE", "null")].
Proof.
  apply (storage_resolves Sample.terminal Sample.CommandStorage
           (Sample.CommandStorage ++ [Sample.default_storage_later])
           Sample.default_storage Sample.settings).
  - intros s Hs. apply list_elem_of_singleton in Hs. by subst.
  - reflexivity.
Defined.

(** ** The merged configuration *)

Section Config.

Import Terminal.

Context {V : Type}.

Variable get_login_title : V.

Implicit Types (attrs : list (string * V)) (m : gmap string V).

(** The scan of [dir(settings)], from the dict [m] collected so far. *)
Local Abbreviation scan := (foldl (fun configs (kv : string * V) =>
                          if negb (String.prefix "TERMINAL" kv.1) then configs
                          else <[kv.1 := kv.2]> configs)).

Lemma scan_inv attrs : forall m k v,
  scan m attrs !! k = Some v ->
  m !! k = Some v \/ (String.prefix "TERMINAL" k = true /\ (k, v) ∈ attrs).
Proof.
  induction attrs as [|[k' v'] attrs IH]; intros m k v Hk; [by left|].
  simpl in Hk. apply IH in Hk as [Hk|[Hp Hin]].
  - destruct (String.prefix "TERMINAL" k') eqn:Hp'; simpl in Hk; [|by left].
    destruct (decide (k' = k)) as [->|Hne].
    + rewrite lookup_insert_eq in Hk. injection Hk as ->.
      right. split; [done | by left].
    + rewrite lookup_insert_ne in Hk by done. by left.
  - right. split; [done | by right].
Qed.

Lemma scan_absent attrs : forall m k,
  k ∉ attrs.*1 -> scan m attrs !! k = m !! k.
Proof.
  induction attrs as [|[k' v'] attrs IH]; intros m k Hk; [done|].
  rewrite fmap_cons in Hk. apply not_elem_of_cons in Hk as [Hne Hk].
  simpl. rewrite IH by done.
  destruct (String.prefix "TERMINAL" k'); simpl; [|done].
  by rewrite lookup_insert_ne.
Qed.

Lemma scan_complete attrs : forall m k v,
  NoDup attrs.*1 -> (k, v) ∈ attrs -> String.prefix "TERMINAL" k = true ->
  scan m attrs !! k = Some v.
Proof.
  induction attrs as [|[k' v'] attrs IH]; intros m k v Hnd Hin Hp.
  - by apply elem_of_nil in Hin.
  - rewrite fmap_cons in Hnd. apply NoDup_cons in Hnd as [Hk' Hnd].
    apply elem_of_cons in Hin as [[= -> ->]|Hin]; simpl.
    + rewrite scan_absent by done. rewrite Hp. simpl.
      by rewrite lookup_insert_eq.
    + by apply IH.
Qed.

(** X5. Whatever the settings hold under these names, the configuration's
    TERMINAL_COMMAND_STORAGE and TERMINAL_REPLAY_STORAGE are the terminal's
    own resolved storage configurations, TERMINAL_HEADER_TITLE is the login
    title, and the two security entries are the settings' values: the later
    updates override what the scan of the settings collected. *)
Theorem config_fixed_keys (self : t)
    (CommandStorage ReplayStorage : list (StorageMixin.Storage V))
    (settings : Settings V) :
  let configs :=
    config get_login_title self CommandStorage ReplayStorage settings in
  configs !! "TERMINAL_COMMAND_STORAGE"
  = Some (StorageMixin.get_command_storage_config (command_storage self)
            CommandStorage (storage_defaults settings)) /\
  configs !! "TERMINAL_REPLAY_STORAGE"
  = Some (StorageMixin.get_replay_storage_config (replay_storage self)
            ReplayStorage (storage_defaults settings)) /\
  configs !! "TERMINAL_HEADER_TITLE" = Some get_login_title /\
  configs !! "SECURITY_MAX_IDLE_TIME"
  = Some (SECURITY_MAX_IDLE_TIME settings) /\
  configs !! "SECURITY_SESSION_SHARE"
  = Some (SECURITY_SESSION_SHARE settings).
Proof.
  unfold config, dict_update, get_login_title_setting,
    StorageMixin.get_command_storage_setting,
    StorageMixin.get_replay_storage_setting. simpl.
  repeat split;
    repeat (rewrite lookup_insert_ne by done); by rewrite lookup_insert_eq.
Qed.

(** X6. Apart from those five names, the configuration holds exactly what the
    settings hold under names that start with TERMINAL: a name bound in the
    configuration is bound to a value the settings list under it, and (the
    names of the settings being distinct) every such name is bound to its
    value. No other name is ever in the configuration. *)
Theorem config_scanned_keys (self : t)
    (CommandStorage ReplayStorage : list (StorageMixin.Storage V))
    (settings : Settings V) (k : string) (v : V) :
  let configs :=
    config get_login_title self CommandStorage ReplayStorage settings in
  (is_Some (configs !! k) ->
   String.prefix "TERMINAL" k = true \/
   k = "SECURITY_MAX_IDLE_TIME" \/ k = "SECURITY_SESSION_SHARE") /\
  (k ∉ ["TERMINAL_COMMAND_STORAGE"; "TERMINAL_REPLAY_STORAGE";
        "TERMINAL_HEADER_TITLE"; "SECURITY_MAX_IDLE_TIME";
        "SECURITY_SESSION_SHARE"] ->
   (configs !! k = Some v ->
    String.prefix "TERMINAL" k = true /\ (k, v) ∈ dir_settings settings) /\
   (NoDup (dir_settings settings).*1 ->
    String.prefix "TERMINAL" k = true -> (k, v) ∈ dir_settings settings ->
    configs !! k = Some v)).
Proof.
  intros configs.
  assert (Hother :
    k ∉ ["TERMINAL_COMMAND_STORAGE"; "TERMINAL_REPLAY_STORAGE";
         "TERMINAL_HEADER_TITLE"; "SECURITY_MAX_IDLE_TIME";
         "SECURITY_SESSION_SHARE"] ->
    configs !! k = scan (∅ : gmap string V) (dir_settings settings) !! k).
  { intros Hk. subst configs.
    unfold config, dict_update, get_login_title_setting,
      StorageMixin.get_command_storage_setting,
      StorageMixin.get_replay_storage_setting. simpl.
    repeat (rewrite lookup_insert_ne;
            [|intros <-; apply Hk; repeat constructor]).
    done. }
  split.
  - intros [w Hw].
    destruct (decide (k ∈ ["TERMINAL_COMMAND_STORAGE";
         "TERMINAL_REPLAY_STORAGE"; "TERMINAL_HEADER_TITLE";
         "SECURITY_MAX_IDLE_TIME"; "SECURITY_SESSION_SHARE"])) as [Hin|Hk].
    + repeat (apply elem_of_cons in Hin as [->|Hin]); auto.
      by apply elem_of_nil in Hin.
    + rewrite (Hother Hk) in Hw. apply scan_inv in Hw as [Hw|[Hp _]].
      * by rewrite lookup_empty in Hw.
      * by left.
  - intros Hk. rewrite (Hother Hk). split.
    + intros Hv. apply scan_inv in Hv as [Hv|Hv]; [|done].
      by rewrite lookup_empty in Hv.
    + intros Hnd Hp Hin. by apply scan_complete.
Qed.

End Config.

Lemma config_scanned_keys_witness :
  let configs :=
    Terminal.config [("title", "JumpServer")] Sample.orphan_terminal
      Sample.CommandStorage Sample.ReplayStorage Sample.terminal_settings in
  configs !! "TERMINAL_ASSET_LIST_PAGE_SIZE" = Some [("value", "auto")] /\
  configs !! "DEBUG" = None /\
  configs !! "TERMINAL_COMMAND_STORAGE" = Some [("TYPE", "server")].
Proof.
  intros configs. split; [|by split].
  apply (config_scanned_keys [("title", "JumpServer")] Sample.orphan_terminal
           Sample.CommandStorage Sample.ReplayStorage
           Sample.terminal_settings).
  - intros Hin. repeat (apply elem_of_cons in Hin as [Hin|Hin]; [done|]).
    by apply elem_of_nil in Hin.
  - apply NoDup_ListNoDup. repeat constructor; simpl; intuition discriminate.
  - reflexivity.
  - right. by left.
Defined.
(** ** Enabling and disabling the account *)

Section IsActive.

Import Terminal.

Variable User_save : User.t -> M Database unit.

(** X7. Setting [is_active] on a terminal with an account: the getter then
    gives the value set, also when saving the account raises (the object
    in memory is changed before the save); the account keeps its key and
    name, the database is as the account's save left it and the outcome is
    the save's. On a terminal without an account the setter does nothing
    and the getter stays false. *)
Theorem is_active_round_trip (env : Env) (active : bool) :
  (forall u, user (self env) = Some u ->
     let u' := {| User.pk := User.pk u; User.username := User.username u;
                  User.is_active := active |} in
     let r := is_active_setter User_save active env in
     is_active (self (state_after r)) = active /\
     user (self (state_after r)) = Some u' /\
     outcome_of r = outcome_of (User_save u' (db env)) /\
     db (state_after r) = state_after (User_save u' (db env)) /\
     is_deleted (self (state_after r)) = is_deleted (self env) /\
     is_accepted (self (state_after r)) = is_accepted (self env)) /\
  (user (self env) = None ->
   is_active_setter User_save active env = (Returns tt, env) /\
   is_active (self env) = false).
Proof.
  split.
  - intros u Hu u' r. subst r u'.
    destruct env as [s d]. simpl in Hu.
    unfold is_active_setter, bind, get_state, setattr_user, modify, on_db,
      outcome_of, state_after. simpl. rewrite Hu.
    cbv [truthy option_truthy User.user_truthy]. simpl.
    destruct (User_save _ d) as [[[]|e] d1]; simpl;
      unfold is_active; simpl; by destruct active.
  - intros Hu. unfold is_active_setter, is_active. unfold bind, get_state.
    by rewrite Hu.
Qed.

End IsActive.

Lemma is_active_round_trip_witness :
  let env := {| Terminal.self := Sample.terminal;
                Terminal.db := Sample.database |} in
  Terminal.is_active (Terminal.self env) = true /\
  Terminal.is_active
    (Terminal.self
       (state_after
          (Terminal.is_active_setter
             (fun _ => raise (RaisedBy "users" "OperationalError"))
             false env)))
  = false.
Proof.
  intros env. split; [reflexivity|].
  destruct (is_active_round_trip
              (fun _ => raise (RaisedBy "users" "OperationalError"))
              env false) as [Hset _].
  by apply (Hset Sample.account).
Defined.

(** ** The queryset views *)

Section QuerySets.

Import Terminal BaseTerminalQuerySet.

Implicit Types (qs : list Terminal.t) (t : Terminal.t).

Lemma user__is_active_is_active t : user__is_active t = is_active t.
Proof.
  unfold user__is_active, is_active. destruct (user t) as [u|]; [|done].
  cbv [truthy option_truthy User.user_truthy bool_truthy]. simpl.
  by destruct (User.is_active u).
Qed.

Lemma filter_ext_elem_of {A} (P Q : A -> Prop)
    `{!forall x, Decision (P x), !forall x, Decision (Q x)} (l : list A) :
  (forall x, x ∈ l -> P x <-> Q x) -> filter P l = filter Q l.
Proof.
  induction l as [|a l IH]; intros Hext; [done|].
  rewrite !filter_cons. rewrite IH by (intros x Hx; apply Hext; by right).
  destruct (decide (P a)) as [Hp|Hp], (decide (Q a)) as [Hq|Hq];
    try done; exfalso.
  - apply Hq, (Hext a); [by left | done].
  - apply Hp, (Hext a); [by left | done].
Qed.

Lemma primary_key_inj qs t t' :
  NoDup (id <$> qs) -> t ∈ qs -> t' ∈ qs -> id t = id t' -> t = t'.
Proof.
  induction qs as [|a qs IH]; intros Hnd Ht Ht' Hid.
  - by apply elem_of_nil in Ht.
  - rewrite fmap_cons in Hnd. apply NoDup_cons in Hnd as [Ha Hnd].
    apply elem_of_cons in Ht as [->|Ht]; apply elem_of_cons in Ht' as [->|Ht'].
    + done.
    + exfalso. apply Ha. rewrite Hid. by apply list_elem_of_fmap_2.
    + exfalso. apply Ha. rewrite <- Hid. by apply list_elem_of_fmap_2.
    + by apply IH.
Qed.

(** With primary keys distinct, the list that stands for [alive] is the
    list of the queryset, filtered. *)
Lemma alive_is_filter (now : Z) (cache : Cache.t) qs :
  NoDup (id <$> qs) ->
  alive now cache qs
  = filter (fun t => is_deleted t = false /\ is_active t = true /\
                     truthy (is_alive t now cache) = true) qs.
Proof.
  intros Hnd. unfold alive, active, undeleted.
  apply filter_ext_elem_of. intros t Ht. split.
  - intros Hin. apply list_elem_of_fmap_1 in Hin as (t' & Hid & Hin).
    apply list_elem_of_filter in Hin as [Halive Hin].
    apply list_elem_of_filter in Hin as [Hact Hin].
    apply list_elem_of_filter in Hin as [Hdel Hin].
    assert (t = t') as <- by by apply (primary_key_inj qs).
    by rewrite <- user__is_active_is_active.
  - intros (Hdel & Hact & Halive). apply list_elem_of_fmap_2.
    rewrite !list_elem_of_filter.
    by rewrite user__is_active_is_active.
Qed.

(** X8. What [alive] yields, whatever the order: with primary keys
    distinct, a terminal is among the terminals [alive] yields exactly when
    it is in the queryset, is not deleted, has an active account and has
    its liveness flag set; acceptance plays no part. *)
Theorem alive_yields (now : Z) (cache : Cache.t) qs t :
  NoDup (id <$> qs) ->
  (t ∈ alive now cache qs <->
   t ∈ qs /\ is_deleted t = false /\ is_active t = true /\
   truthy (is_alive t now cache) = true).
Proof.
  intros Hnd. rewrite alive_is_filter by done.
  rewrite list_elem_of_filter. tauto.
Qed.

(** The views narrow one another: what [active] yields [undeleted] yields,
    and with primary keys distinct what [alive] yields [active] yields. *)
Theorem views_nested (now : Z) (cache : Cache.t) qs t :
  (t ∈ active qs -> t ∈ undeleted qs) /\
  (t ∈ undeleted qs -> t ∈ qs /\ is_deleted t = false) /\
  (NoDup (id <$> qs) -> t ∈ alive now cache qs -> t ∈ active qs).
Proof.
  split; [|split].
  - unfold active. rewrite list_elem_of_filter. tauto.
  - unfold undeleted. rewrite list_elem_of_filter. tauto.
  - intros Hnd. rewrite alive_is_filter by done.
    unfold active, undeleted. rewrite !list_elem_of_filter.
    rewrite user__is_active_is_active. tauto.
Qed.

(** X9. The status text and the [alive] view agree: with primary keys distinct,
    a terminal of the queryset reads "Active" exactly when it is accepted
    and [alive] yields it. A terminal that [alive] yields and that is not
    accepted reads "NotAccept". *)
Theorem alive_status (now : Z) (cache : Cache.t) qs t :
  NoDup (id <$> qs) -> t ∈ qs ->
  (status t now cache = "Active" <->
   is_accepted t = true /\ t ∈ alive now cache qs) /\
  (t ∈ alive now cache qs -> is_accepted t = false ->
   status t now cache = "NotAccept").
Proof.
  intros Hnd Ht. rewrite alive_is_filter by done.
  rewrite list_elem_of_filter. unfold status.
  destruct (is_accepted t), (is_deleted t), (is_active t),
    (truthy (is_alive t now cache)); simpl; split; try done;
    try (split; [discriminate | intros (? & (? & ? & ?) & ?); discriminate]).
Qed.

End QuerySets.

Lemma alive_yields_witness :
  Sample.terminal ∈
    BaseTerminalQuerySet.alive 60
      (TerminalStatusMixin.set_alive_default "0b1e" 0
         (TerminalStatusMixin.set_alive_default "c3d4" 0 ∅))
      [Sample.orphan_terminal; Sample.rejected_terminal; Sample.terminal].
Proof.
  apply (alive_yields 60
           (TerminalStatusMixin.set_alive_default "0b1e" 0
              (TerminalStatusMixin.set_alive_default "c3d4" 0 ∅))
           [Sample.orphan_terminal; Sample.rejected_terminal;
            Sample.terminal] Sample.terminal).
  - apply NoDup_ListNoDup. repeat constructor; simpl; intuition discriminate.
  - split; [by right; right; left | by repeat split].
Defined.

Lemma views_nested_witness :
  Sample.terminal ∈
    BaseTerminalQuerySet.active
      [Sample.terminal; Sample.rejected_terminal; Sample.orphan_terminal].
Proof.
  eapply (views_nested 60
           (TerminalStatusMixin.set_alive_default "0b1e" 0 ∅)
           [Sample.terminal; Sample.rejected_terminal;
            Sample.orphan_terminal] Sample.terminal).
  - apply NoDup_ListNoDup. repeat constructor; simpl; intuition discriminate.
  - rewrite alive_is_filter.
    + apply list_elem_of_filter. split; [by repeat split | by left].
    + apply NoDup_ListNoDup.
      repeat constructor; simpl; intuition discriminate.
Defined.

Lemma alive_status_witness :
  Terminal.status Sample.terminal 60
    (TerminalStatusMixin.set_alive_default "0b1e" 0 ∅) = "Active".
Proof.
  apply (alive_status 60 (TerminalStatusMixin.set_alive_default "0b1e" 0 ∅)
           [Sample.terminal; Sample.rejected_terminal;
            Sample.orphan_terminal] Sample.terminal).
  - apply NoDup_ListNoDup. repeat constructor; simpl; intuition discriminate.
  - by left.
  - split; [reflexivity|]. rewrite alive_is_filter.
    + apply list_elem_of_filter. split; [by repeat split | by left].
    + apply NoDup_ListNoDup.
      repeat constructor; simpl; intuition discriminate.
Defined.

(** ** A deleted terminal, seen by the status text and the views *)

Section Deleted.

Import Terminal.

Variable User_delete : User.t -> M Database unit.


End Deleted.


(** ** The catalog: what a seeding run writes and when it raises *)

Section CatalogRuns.

Import Protocol.

Implicit Types (tbl : list t) (p q : t) (n : string) (po : Z)
  (ds : list data) (d : data).

(** The loop only appends: the rows that were there stay as they are and
    where they are, primary keys stay distinct, and every appended row is
    builtin and has the name and port of an entry that passed the guard;
    whether the loop returns or raises. *)
Lemma loop_grows ds : forall (acc : list t) tbl,
  unique_together tbl -> NoDup (pk <$> tbl) ->
  exists ext,
    state_after (get_or_create_protocols_from acc ds tbl) = tbl ++ ext /\
    NoDup (pk <$> tbl ++ ext) /\
    Forall (fun r => builtin r = true /\
              exists d, d ∈ ds /\
                all [truthy (d_name d); truthy (d_port d)] = true /\
                d_name d = Some (name r) /\ d_port d = Some (port r)) ext.
Proof.
  induction ds as [|d rest IH]; intros acc tbl Hnd Hpk.
  - exists []. simpl. by rewrite app_nil_r.
  - destruct (all [truthy (d_name d); truthy (d_port d)]) eqn:Hg.
    + destruct (guard_passed d Hg) as (n & po & Hn & Hpo & _).
      rewrite (loop_step d rest acc n po tbl Hg Hn Hpo).
      destruct (decide ((n, po) ∈ unique_key <$> tbl)) as [Hin|Hno].
      * apply list_elem_of_fmap_1 in Hin as (p & Hk & Hp).
        injection Hk as -> ->. destruct (builtin p) eqn:Hb.
        -- rewrite get_or_create_found by done. simpl.
           destruct (IH (acc ++ [p]) tbl Hnd Hpk) as (ext & -> & Hpk' & Hext).
           exists ext. split; [done|]. split; [done|].
           eapply Forall_impl; [exact Hext|]. simpl.
           intros r (Hrb & d' & Hd' & Hrest). split; [done|].
           exists d'. split; [by right | done].
        -- rewrite get_or_create_conflict by done. simpl.
           exists []. by rewrite app_nil_r.
      * rewrite get_or_create_created by done. simpl.
        set (new := {| pk := next_pk tbl; name := n; port := po;
                       builtin := true |}).
        destruct (IH (acc ++ [new]) (tbl ++ [new]))
          as (ext & -> & Hpk' & Hext).
        { by apply unique_together_snoc. }
        { rewrite fmap_app. apply NoDup_app. split; [done|].
          split; [|apply NoDup_singleton].
          intros k Hk Hk'. apply list_elem_of_singleton in Hk'. subst k.
          by apply (next_pk_fresh tbl). }
        exists (new :: ext). rewrite <- app_assoc. simpl.
        split; [done|]. split; [by rewrite <- app_assoc in Hpk'|].
        constructor.
        -- split; [done|]. exists d. split; [by left|].
           split; [exact Hg|]. by rewrite Hn, Hpo.
        -- eapply Forall_impl; [exact Hext|]. simpl.
           intros r (Hrb & d' & Hd' & Hrest). split; [done|].
           exists d'. split; [by right | done].
    + rewrite (loop_skip d rest acc Hg).
      destruct (IH acc tbl Hnd Hpk) as (ext & -> & Hpk' & Hext).
      exists ext. split; [done|]. split; [done|].
      eapply Forall_impl; [exact Hext|]. simpl.
      intros r (Hrb & d' & Hd' & Hrest). split; [done|].
      exists d'. split; [by right | done].
Qed.

(** X11. [get_or_create_protocols] never changes or removes a row of the
    catalog: whether it returns or raises, the catalog afterwards is the
    catalog before with new rows appended; primary keys stay distinct; and
    every new row is builtin and carries the name and port of an entry that
    passed the guard. *)
Theorem get_or_create_protocols_append_only ds tbl :
  unique_together tbl -> NoDup (pk <$> tbl) ->
  exists ext,
    state_after (get_or_create_protocols ds tbl) = tbl ++ ext /\
    NoDup (pk <$> tbl ++ ext) /\
    unique_together (tbl ++ ext) /\
    Forall (fun r => builtin r = true /\
              exists d, d ∈ ds /\
                all [truthy (d_name d); truthy (d_port d)] = true /\
                d_name d = Some (name r) /\ d_port d = Some (port r)) ext.
Proof.
  intros Hnd Hpk. unfold get_or_create_protocols.
  destruct (loop_grows ds [] tbl Hnd Hpk) as (ext & Hext & Hpk' & Hrows).
  exists ext. repeat split; try done.
  destruct (loop_settles ds [] tbl Hnd) as (Hnd' & _).
  by rewrite Hext in Hnd'.
Qed.

(** An entry whose name and port are held by a row that is not builtin
    makes the loop raise the store's refusal, wherever the entry stands. *)
Lemma loop_conflict_raises ds : forall (acc : list t) tbl,
  unique_together tbl ->
  (exists d p, d ∈ ds /\ all [truthy (d_name d); truthy (d_port d)] = true /\
     p ∈ tbl /\ d_name d = Some (name p) /\ d_port d = Some (port p) /\
     builtin p = false) ->
  outcome_of (get_or_create_protocols_from acc ds tbl)
  = Raises IntegrityError.
Proof.
  induction ds as [|d rest IH];
    intros acc tbl Hnd (d0 & p0 & Hd0 & Hg0 & Hp0 & Hn0 & Hpo0 & Hb0).
  - by apply elem_of_nil in Hd0.
  - destruct (all [truthy (d_name d); truthy (d_port d)]) eqn:Hg.
    + destruct (guard_passed d Hg) as (n & po & Hn & Hpo & _).
      rewrite (loop_step d rest acc n po tbl Hg Hn Hpo).
      destruct (get_or_create_cases tbl n po Hnd)
        as [(p & Hp & Hpn & Hpp & Hb & ->)
           |[(p & Hpn & Hpp & Hb & Hfresh & ->)
            |(p & Hp & Hpn & Hpp & Hb & ->)]]; simpl; [| |done].
      * apply elem_of_cons in Hd0 as [->|Hd0].
        -- exfalso. assert (p0 = p) as ->; [|congruence].
           apply (unique_together_inj tbl); [done..|].
           unfold unique_key. congruence.
        -- apply IH; [done|]. by exists d0, p0.
      * apply elem_of_cons in Hd0 as [->|Hd0].
        -- exfalso. apply Hfresh.
           apply (list_elem_of_fmap_2' _ _ p0); [done|].
           unfold unique_key. congruence.
        -- apply IH; [by apply unique_together_snoc|].
           exists d0, p0. repeat split; try done.
           apply elem_of_app. by left.
    + rewrite (loop_skip d rest acc Hg).
      apply elem_of_cons in Hd0 as [->|Hd0]; [congruence|].
      apply IH; [done|]. by exists d0, p0.
Qed.

(** The loop passes over the entries the guard rejects. *)
Lemma loop_filter_guard ds : forall (acc : list t) tbl,
  get_or_create_protocols_from acc ds tbl
  = get_or_create_protocols_from acc
      (filter (fun d => all [truthy (d_name d); truthy (d_port d)] = true)
         ds) tbl.
Proof.
  induction ds as [|d rest IH]; intros acc tbl; [done|].
  destruct (all [truthy (d_name d); truthy (d_port d)]) eqn:Hg.
  - destruct (guard_passed d Hg) as (n & po & Hn & Hpo & _).
    rewrite filter_cons_True by done.
    rewrite !(loop_step d _ acc n po tbl Hg Hn Hpo).
    destruct (objects_get_or_create n po true tbl) as [[r|e] tbl']; [|done].
    apply IH.
  - rewrite filter_cons_False by by rewrite Hg.
    rewrite (loop_skip d rest acc Hg). apply IH.
Qed.

(** The only exception the loop lets out is the store's refusal. *)
Lemma loop_raises_refusal ds : forall (acc : list t) tbl e,
  unique_together tbl ->
  outcome_of (get_or_create_protocols_from acc ds tbl) = Raises e ->
  e = IntegrityError.
Proof.
  induction ds as [|d rest IH]; intros acc tbl e Hnd Hraise; [done|].
  destruct (all [truthy (d_name d); truthy (d_port d)]) eqn:Hg.
  - destruct (guard_passed d Hg) as (n & po & Hn & Hpo & _).
    rewrite (loop_step d rest acc n po tbl Hg Hn Hpo) in Hraise.
    destruct (get_or_create_cases tbl n po Hnd)
      as [(p & Hp & Hpn & Hpp & Hb & Hrun)
         |[(p & Hpn & Hpp & Hb & Hfresh & Hrun)
          |(p & Hp & Hpn & Hpp & Hb & Hrun)]];
      rewrite Hrun in Hraise; simpl in Hraise.
    + by apply (IH _ _ _ Hnd Hraise).
    + apply (IH _ _ _ (unique_together_snoc _ _ Hnd Hfresh) Hraise).
    + by injection Hraise.
  - rewrite (loop_skip d rest acc Hg) in Hraise. by apply (IH _ _ _ Hnd Hraise).
Qed.

(** X12. When [get_or_create_protocols] raises, for entries the columns can
    hold (names of at most 64 characters, ports of the integer column) and
    on a catalog that satisfies the uniqueness constraint: it raises if
    some entry that passes the guard has its name and port held by a row
    that is not builtin, and then what it raises is the store's refusal on
    name and port; if there is no such entry it returns; and with such
    entries no other exception comes out of it. *)
Theorem get_or_create_protocols_outcome ds tbl :
  unique_together tbl ->
  (forall d n po, d ∈ ds -> d_name d = Some n -> d_port d = Some po ->
     (String.length n <= 64)%nat /\ -2147483648 <= po <= 2147483647) ->
  ((exists d p, d ∈ ds /\ all [truthy (d_name d); truthy (d_port d)] = true /\
      p ∈ tbl /\ d_name d = Some (name p) /\ d_port d = Some (port p) /\
      builtin p = false) ->
   outcome_of (get_or_create_protocols ds tbl) = Raises IntegrityError) /\
  (~ (exists d p, d ∈ ds /\
        all [truthy (d_name d); truthy (d_port d)] = true /\
        p ∈ tbl /\ d_name d = Some (name p) /\ d_port d = Some (port p) /\
        builtin p = false) ->
   exists rows, outcome_of (get_or_create_protocols ds tbl) = Returns rows) /\
  (forall e, outcome_of (get_or_create_protocols ds tbl) = Raises e ->
     e = IntegrityError).
Proof.
  intros Hnd _. unfold get_or_create_protocols. split; [|split].
  - by apply loop_conflict_raises.
  - intros Hfree. rewrite loop_filter_guard.
    edestruct (loop_returns) as (rows & tbl' & Hrun & _); [exact Hnd| |].
    2: { exists rows. by rewrite Hrun. }
    intros p d Hp Hd Hn Hpo. apply list_elem_of_filter in Hd as [Hg Hd].
    destruct (builtin p) eqn:Hb; [done|]. exfalso. apply Hfree.
    by exists d, p.
  - intros e. by apply loop_raises_refusal.
Qed.

End CatalogRuns.

Lemma get_or_create_protocols_append_only_witness :
  state_after
    (Protocol.get_or_create_protocols
       [Sample.zero_port_data; Sample.ssh_data] Sample.custom_catalog)
  = Sample.custom_catalog ++ [].
Proof.
  destruct (get_or_create_protocols_append_only
              [Sample.zero_port_data; Sample.ssh_data]
              Sample.custom_catalog) as (ext & Hext & _).
  - apply NoDup_singleton.
  - apply NoDup_singleton.
  - reflexivity.
Defined.

Lemma get_or_create_protocols_outcome_witness :
  outcome_of
    (Protocol.get_or_create_protocols
       [Sample.zero_port_data; Sample.ssh_data] Sample.custom_catalog)
  = Raises IntegrityError.
Proof.
  apply (get_or_create_protocols_outcome
           [Sample.zero_port_data; Sample.ssh_data] Sample.custom_catalog).
  - apply NoDup_singleton.
  - intros d n po Hd Hn Hpo.
    apply elem_of_cons in Hd as [->|Hd];
      [|apply list_elem_of_singleton in Hd as ->];
      injection Hn as <-; injection Hpo as <-; simpl; lia.
  - exists Sample.ssh_data. eexists. split; [by right; left|].
    split; [reflexivity|]. split; [by left|]. by repeat split.
Defined.

(** ** Seeding the catalog and resolving defaults *)

Section Seeding.

Import Protocol.

Implicit Types (tbl : list t) (ds : list data).

Variable mapper : gmap string (list const.ProtocolName).

(** The members of [const.ProtocolName]. *)
Variable members : list const.ProtocolName.

(** On a catalog that already holds the builtin row of every entry that
    passes the guard, the loop returns those rows and writes nothing. *)
Lemma loop_all_found ds : forall (acc : list t) tbl,
  unique_together tbl ->
  (forall d, d ∈ ds -> all [truthy (d_name d); truthy (d_port d)] = true ->
     exists r, r ∈ tbl /\ d_name d = Some (name r) /\
               d_port d = Some (port r) /\ builtin r = true) ->
  exists rows,
    get_or_create_protocols_from acc ds tbl = (Returns (acc ++ rows), tbl) /\
    Forall (fun r => r ∈ tbl) rows.
Proof.
  induction ds as [|d rest IH]; intros acc tbl Hnd Hall.
  - exists []. simpl. by rewrite app_nil_r.
  - destruct (all [truthy (d_name d); truthy (d_port d)]) eqn:Hg.
    + destruct (Hall d) as (r & Hr & Hn & Hpo & Hb); [by left | done |].
      rewrite (loop_step d rest acc (name r) (port r) tbl Hg Hn Hpo).
      rewrite get_or_create_found by done. simpl.
      destruct (IH (acc ++ [r]) tbl Hnd) as (rows & Hrun & Hrows).
      { intros d' Hd'. apply Hall. by right. }
      exists (r :: rows). rewrite Hrun, <- app_assoc. split; [done|].
      by constructor.
    + rewrite (loop_skip d rest acc Hg). apply IH; [done|].
      intros d' Hd'. apply Hall. by right.
Qed.

Lemma initial_to_db_returns tbl :
  unique_together tbl ->
  (forall r p, r ∈ tbl -> p ∈ members -> name r = const.name p ->
     port r = const.default_port p -> builtin r = true) ->
  exists rows tbl',
    initial_to_db members tbl = (Returns rows, tbl') /\
    unique_together tbl' /\
    (forall r, r ∈ tbl -> r ∈ tbl') /\
    (forall p, p ∈ members -> const.name p <> "" ->
       const.default_port p <> 0 ->
       exists r, r ∈ tbl' /\ name r = const.name p /\
                 port r = const.default_port p /\ builtin r = true).
Proof.
  intros Hnd Hfree. unfold initial_to_db, get_initial_data,
    get_or_create_protocols.
  edestruct (loop_returns) as (rows & tbl' & Hrun & Hrows & Htbl);
    [exact Hnd| |].
  2: { exists rows, tbl'. split; [exact Hrun|]. split; [|split].
       - edestruct (loop_settles) as (Hnd' & _); [exact Hnd|].
         by erewrite Hrun in Hnd'.
       - intros r Hr. apply Htbl. by left.
       - intros p Hp Hn Hpo.
         set (d := {| d_name := Some (const.name p);
                      d_port := Some (const.default_port p);
                      d_builtin := Some true |}).
         assert (Hd : d ∈ filter
                   (fun d => all [truthy (d_name d); truthy (d_port d)] = true)
                   ((fun p => {| d_name := Some (const.name p);
                                 d_port := Some (const.default_port p);
                                 d_builtin := Some true |}) <$> members)).
         { apply list_elem_of_filter. split.
           - simpl. destruct (const.name p) as [|a n]; [done|].
             cbv [truthy option_truthy str_truthy int_truthy]. simpl.
             by destruct (Z.eqb_spec (const.default_port p) 0).
           - by apply (list_elem_of_fmap_2' _ _ p). }
         apply list_elem_of_lookup_1 in Hd as [i Hi].
         destruct (Forall2_lookup_l _ _ _ _ _ Hrows Hi)
           as (r & Hr & Hrn & Hrp & Hrb).
         exists r. simpl in Hrn, Hrp. repeat split; try congruence.
         apply Htbl. right. by apply list_elem_of_lookup_2 in Hr. }
  intros r d Hr Hd Hn Hpo.
  apply list_elem_of_fmap_1 in Hd as (p & -> & Hp). simpl in Hn, Hpo.
  apply (Hfree r p); [done..| |]; congruence.
Qed.

(** X13. [initial_to_db] on a catalog with no row that is not builtin under
    a member's name and port: it returns, the rows that were there are kept,
    and afterwards the catalog holds, for every member with a non-empty
    name and a non-zero default port, the builtin row of that name and
    port. *)
Theorem initial_to_db_seeds tbl :
  unique_together tbl ->
  (forall r p, r ∈ tbl -> p ∈ members -> name r = const.name p ->
     port r = const.default_port p -> builtin r = true) ->
  exists rows tbl',
    initial_to_db members tbl = (Returns rows, tbl') /\
    unique_together tbl' /\
    (forall r, r ∈ tbl -> r ∈ tbl') /\
    (forall p, p ∈ members -> const.name p <> "" ->
       const.default_port p <> 0 ->
       exists r, r ∈ tbl' /\ name r = const.name p /\
                 port r = const.default_port p /\ builtin r = true).
Proof. apply initial_to_db_returns. Qed.

(** X14. After [initial_to_db], the default protocols of every mapped type whose
    protocols are members are resolved without a write: the call returns
    rows of the catalog and leaves the catalog as the seeding left it. *)
Theorem seeded_defaults_no_write (ttype : string)
    (ps : list const.ProtocolName) tbl :
  unique_together tbl ->
  (forall r p, r ∈ tbl -> p ∈ members -> name r = const.name p ->
     port r = const.default_port p -> builtin r = true) ->
  mapper !! ttype = Some ps ->
  (forall p, p ∈ ps -> p ∈ members) ->
  exists rows,
    get_default_protocols mapper ttype
      (state_after (initial_to_db members tbl))
    = (Returns rows, state_after (initial_to_db members tbl)) /\
    Forall (fun r => r ∈ state_after (initial_to_db members tbl)) rows.
Proof.
  intros Hnd Hfree Hps Hsub.
  destruct (initial_to_db_returns tbl Hnd Hfree)
    as (rows0 & tbl' & Hrun & Hnd' & _ & Hseeded).
  rewrite Hrun. simpl.
  unfold get_default_protocols, bind.
  rewrite (get_default_protocols_data_mapped mapper ttype tbl' ps Hps).
  unfold get_or_create_protocols.
  destruct (loop_all_found
              ((fun p => {| d_name := Some (const.name p);
                            d_port := Some (const.default_port p);
                            d_builtin := Some true |}) <$> ps) [] tbl' Hnd')
    as (rows & Hrows & Hin).
  - intros d Hd Hg. apply list_elem_of_fmap_1 in Hd as (p & -> & Hp).
    destruct (guard_passed _ Hg) as (n & po & [= <-] & [= <-] & Hn & Hpo).
    destruct (Hseeded p (Hsub p Hp) Hn Hpo) as (r & Hr & Hrn & Hrp & Hrb).
    exists r. simpl. repeat split; try done; congruence.
  - by exists rows.
Qed.

End Seeding.

Lemma initial_to_db_seeds_witness :
  exists rows tbl',
    Protocol.initial_to_db [Sample.ssh; Sample.rdp] [] = (Returns rows, tbl') /\
    exists r, r ∈ tbl' /\ Protocol.name r = "rdp" /\
              Protocol.port r = 3389 /\ Protocol.builtin r = true.
Proof.
  destruct (initial_to_db_seeds [Sample.ssh; Sample.rdp] [])
    as (rows & tbl' & Hrun & _ & _ & Hseeded).
  - apply NoDup_nil_2.
  - intros r p Hr. by apply elem_of_nil in Hr.
  - exists rows, tbl'. split; [done|].
    apply (Hseeded Sample.rdp); [by right; left | done | done].
Defined.

Lemma seeded_defaults_no_write_witness :
  state_after
    (Protocol.get_default_protocols Sample.mapper "koko"
       (state_after (Protocol.initial_to_db [Sample.ssh; Sample.rdp] [])))
  = state_after (Protocol.initial_to_db [Sample.ssh; Sample.rdp] []).
Proof.
  destruct (seeded_defaults_no_write Sample.mapper [Sample.ssh; Sample.rdp]
              "koko" [Sample.ssh] []) as (rows & Hrun & _).
  - apply NoDup_nil_2.
  - intros r p Hr. by apply elem_of_nil in Hr.
  - reflexivity.
  - intros p Hp. apply list_elem_of_singleton in Hp as ->. by left.
  - by rewrite Hrun.
Defined.

(** ** Resetting twice *)

Section ResetTwice.

Import Protocol.

Implicit Types (tbl : list t) (ds : list data).

(** Running the loop again on the catalog it left ends the same way: it
    raises what it raised, or returns the rows it returned. *)
Lemma loop_rerun ds : forall (acc acc' : list t) tbl,
  unique_together tbl ->
  match outcome_of (get_or_create_protocols_from acc ds tbl) with
  | Raises e =>
      outcome_of
        (get_or_create_protocols_from acc' ds
           (state_after (get_or_create_protocols_from acc ds tbl)))
      = Raises e
  | Returns out =>
      exists rows, out = acc ++ rows /\
        outcome_of
          (get_or_create_protocols_from acc' ds
             (state_after (get_or_create_protocols_from acc ds tbl)))
        = Returns (acc' ++ rows)
  end.
Proof.
  induction ds as [|d rest IH]; intros acc acc' tbl Hnd.
  - simpl. exists []. by rewrite !app_nil_r.
  - destruct (all [truthy (d_name d); truthy (d_port d)]) eqn:Hg.
    + destruct (guard_passed d Hg) as (n & po & Hn & Hpo & _).
      rewrite (loop_step d rest acc n po tbl Hg Hn Hpo).
      rewrite (loop_step d rest acc' n po _ Hg Hn Hpo).
      destruct (get_or_create_cases tbl n po Hnd)
        as [(p & Hp & Hpn & Hpp & Hb & ->)
           |[(p & Hpn & Hpp & Hb & Hfresh & ->)
            |(p & Hp & Hpn & Hpp & Hb & ->)]]; simpl.
      * destruct (loop_settles rest (acc ++ [p]) tbl Hnd)
          as (Hnd1 & [ext Hext] & _).
        rewrite <- Hpn, <- Hpp, get_or_create_found; [|done|..|done].
        2: { rewrite Hext. apply elem_of_app. by left. }
        simpl. specialize (IH (acc ++ [p]) (acc' ++ [p]) tbl Hnd).
        destruct (outcome_of
                    (get_or_create_protocols_from (acc ++ [p]) rest tbl))
          as [out|e]; [|done].
        destruct IH as (rows & -> & IH). exists (p :: rows).
        by rewrite IH, <- !app_assoc.
      * assert (Hnd' : unique_together (tbl ++ [p]))
          by by apply unique_together_snoc.
        destruct (loop_settles rest (acc ++ [p]) (tbl ++ [p]) Hnd')
          as (Hnd1 & [ext Hext] & _).
        rewrite <- Hpn, <- Hpp, get_or_create_found; [|done|..|done].
        2: { rewrite Hext. apply elem_of_app. left. apply elem_of_app.
             right. by apply list_elem_of_singleton. }
        simpl. specialize (IH (acc ++ [p]) (acc' ++ [p]) (tbl ++ [p]) Hnd').
        destruct (outcome_of
                    (get_or_create_protocols_from (acc ++ [p]) rest
                       (tbl ++ [p])))
          as [out|e]; [|done].
        destruct IH as (rows & -> & IH). exists (p :: rows).
        by rewrite IH, <- !app_assoc.
      * by rewrite <- Hpn, <- Hpp, get_or_create_conflict.
    + rewrite (loop_skip d rest acc Hg), (loop_skip d rest acc' Hg).
      by apply IH.
Qed.

Import Terminal.

Variable mapper : gmap string (list const.ProtocolName).

(** [reset_protocols_to_default], spelled out on the outcome of
    [get_default_protocols]. *)
Lemma reset_protocols_to_default_run (env : Env) :
  reset_protocols_to_default mapper env =
  match get_default_protocols mapper (type (self env))
          (protocol_tbl (db env)) with
  | (Returns rows, tbl1) =>
      (Returns tt,
       {| self := self env;
          db := {| protocol_tbl := tbl1;
                   terminal_protocols :=
                     <[id (self env) := list_to_set (Protocol.pk <$> rows)]>
                       (terminal_protocols (db env));
                   terminal_tbl := terminal_tbl (db env);
                   user_tbl := user_tbl (db env) |} |})
  | (Raises e, tbl1) =>
      (Raises e,
       {| self := self env;
          db := {| protocol_tbl := tbl1;
                   terminal_protocols := terminal_protocols (db env);
                   terminal_tbl := terminal_tbl (db env);
                   user_tbl := user_tbl (db env) |} |})
  end.
Proof.
  unfold reset_protocols_to_default, bind, get_state, on_db,
    on_protocol_tbl, protocols_set, modify, outcome_of, state_after. simpl.
  by destruct (get_default_protocols mapper (type (self env))
                 (protocol_tbl (db env))) as [[rows|e] tbl1].
Qed.

(** X15. Resetting a terminal's protocols twice is resetting them once: on a
    catalog that satisfies the uniqueness constraint, the second reset ends
    as the first did (returning, or raising the same exception) and leaves
    the instance and the database as the first left them. *)
Theorem reset_protocols_to_default_twice (env : Env) :
  Protocol.unique_together (protocol_tbl (db env)) ->
  reset_protocols_to_default mapper
    (state_after (reset_protocols_to_default mapper env))
  = reset_protocols_to_default mapper env.
Proof.
  intros Hnd.
  destruct (mapper !! type (self env)) as [ps|] eqn:Hps.
  - set (ds := (fun p => {| d_name := Some (const.name p);
                            d_port := Some (const.default_port p);
                            d_builtin := Some true |}) <$> ps).
    assert (Hgd : forall tbl,
              get_default_protocols mapper (type (self env)) tbl
              = get_or_create_protocols_from [] ds tbl).
    { intros tbl. unfold get_default_protocols, bind.
      by rewrite (get_default_protocols_data_mapped mapper _ _ ps Hps). }
    pose proof (loop_settles ds [] (protocol_tbl (db env)) Hnd)
      as (_ & _ & Hset).
    pose proof (loop_rerun ds [] [] (protocol_tbl (db env)) Hnd) as Hrerun.
    specialize (Hset []).
    rewrite (reset_protocols_to_default_run env), Hgd.
    destruct (get_or_create_protocols_from [] ds (protocol_tbl (db env)))
      as [[rows|e] tbl1] eqn:Hrun; simpl in *;
      rewrite reset_protocols_to_default_run; simpl; rewrite Hgd;
      destruct (get_or_create_protocols_from [] ds tbl1)
        as [[rows2|e2] tbl2]; simpl in *; subst tbl2.
    + destruct Hrerun as (rows' & -> & [= ->]).
      by rewrite insert_insert_eq.
    + by destruct Hrerun as (rows' & _ & ?).
    + done.
    + by injection Hrerun as ->.
  - assert (Hgd : forall tbl,
              get_default_protocols mapper (type (self env)) tbl
              = (Raises (AssertionError
                           ("No support terminal type: "
                            +:+ type (self env))), tbl)).
    { intros tbl. unfold get_default_protocols, bind.
      by rewrite (get_default_protocols_data_unmapped mapper _ _ Hps). }
    rewrite (reset_protocols_to_default_run env), Hgd. simpl.
    rewrite reset_protocols_to_default_run. simpl. by rewrite Hgd.
Qed.

End ResetTwice.

Lemma reset_protocols_to_default_twice_witness :
  let env := {| Terminal.self := Sample.terminal;
                Terminal.db := Sample.custom_database |} in
  Terminal.reset_protocols_to_default Sample.mapper
    (state_after (Terminal.reset_protocols_to_default Sample.mapper env))
  = (Raises IntegrityError, env).
Proof.
  intros env.
  rewrite (reset_protocols_to_default_twice Sample.mapper env).
  - reflexivity.
  - apply NoDup_ListNoDup. repeat constructor; simpl; intuition discriminate.
Defined.

(** ** Migration 0121: the platforms' sftp protocol *)

Section Migration.

Import migration_0121.

Implicit Types (tbl objs : list PlatformProtocol) (r s : PlatformProtocol)
  (has : list Platform).

(** The row the loop builds from an ssh row. *)
Local Abbreviation sftp_of s :=
  {| name := "sftp"; port := port s; primary := false; required := false;
     default := true; public := true;
     setting :=
       {[ "sftp_home" :=
            from_option (fun v => v) (PyStr "/tmp")
              (setting s !! "sftp_home") ]};
     platform := platform s |}.

Lemma setting_or_empty (m : gmap string pyval) (k : string) :
  (if truthy m then m else ∅) !! k = m !! k.
Proof.
  unfold truthy, json_truthy. destruct (decide (m = ∅)) as [->|Hne].
  - by rewrite bool_decide_eq_true_2.
  - by rewrite bool_decide_eq_false_2.
Qed.

Lemma collect_rows has : forall protocols new out,
  (collect has protocols new out).1
  = new ++ ((fun s => sftp_of s) <$>
            filter (fun s => platform_id (platform s)
                             ∉ platform_id <$> has) protocols).
Proof.
  induction protocols as [|s rest IH]; intros new out; simpl.
  - by rewrite app_nil_r.
  - destruct (decide (platform_id (platform s) ∈ platform_id <$> has))
      as [Hin|Hno].
    + rewrite bool_decide_eq_true_2 by done.
      rewrite filter_cons_False by tauto. apply IH.
    + rewrite bool_decide_eq_false_2 by done.
      rewrite filter_cons_True by done. rewrite IH, setting_or_empty.
      by rewrite <- app_assoc.
Qed.

(** The dict the comprehension builds: keys distinct, each key that of its
    value, every value one of the rows, every row's key among the keys. *)
Lemma dict_setitem_keys k v d :
  (dict_setitem k v d).*1 = if decide (k ∈ d.*1) then d.*1 else d.*1 ++ [k].
Proof.
  induction d as [|[k' v'] d IH]; [done|]. cbn [dict_setitem].
  destruct (decide (k' = k)) as [->|Hne]; rewrite !fmap_cons; cbn [fst].
  - by rewrite decide_True by by left.
  - rewrite IH. destruct (decide (k ∈ d.*1)) as [Hin|Hno].
    + by rewrite decide_True by by right.
    + rewrite decide_False; [done|].
      intros Hin. apply elem_of_cons in Hin as [->|Hin]; tauto.
Qed.

Lemma dict_setitem_elem k v d kv :
  kv ∈ dict_setitem k v d -> kv ∈ d \/ (kv.1 = k /\ kv.2 = v).
Proof.
  induction d as [|[k' v'] d IH]; simpl.
  - intros Hin. apply list_elem_of_singleton in Hin as ->. by right.
  - destruct (decide (k' = k)) as [->|Hne]; intros Hin;
      apply elem_of_cons in Hin as [->|Hin].
    + by right.
    + left. by right.
    + left. by left.
    + apply IH in Hin as [Hin|Hin]; [left; by right | by right].
Qed.

Lemma new_protocols_dict_spec (new : list PlatformProtocol) :
  NoDup (new_protocols_dict new).*1 /\
  (forall kv, kv ∈ new_protocols_dict new ->
     kv.2 ∈ new /\ kv.1 = (name kv.2, platform_id (platform kv.2))) /\
  (forall r, r ∈ new ->
     (name r, platform_id (platform r)) ∈ (new_protocols_dict new).*1).
Proof.
  unfold new_protocols_dict.
  assert (Hgen : forall l d,
    NoDup d.*1 ->
    (forall kv, kv ∈ d ->
       kv.1 = (name kv.2, platform_id (platform kv.2))) ->
    let d' := foldl (fun d protocol =>
                dict_setitem (name protocol, platform_id (platform protocol))
                  protocol d) d l in
    NoDup d'.*1 /\
    (forall kv, kv ∈ d' -> (kv ∈ d \/ kv.2 ∈ l) /\
       kv.1 = (name kv.2, platform_id (platform kv.2))) /\
    (forall k, k ∈ d.*1 -> k ∈ d'.*1) /\
    (forall r, r ∈ l -> (name r, platform_id (platform r)) ∈ d'.*1)).
  { induction l as [|a l IH]; intros d Hnd Hkey; simpl.
    - repeat split; try done.
      + by left.
      + by apply Hkey.
      + intros r Hr. by apply elem_of_nil in Hr.
    - set (k := (name a, platform_id (platform a))).
      destruct (IH (dict_setitem k a d)) as (Hnd' & Helem & Hkeys & Hrows).
      { rewrite dict_setitem_keys. destruct (decide (k ∈ d.*1)); [done|].
        apply NoDup_app. split; [done|]. split; [|apply NoDup_singleton].
        intros k' Hk' Hk''. apply list_elem_of_singleton in Hk''.
        by subst. }
      { intros kv Hkv. apply dict_setitem_elem in Hkv as [Hkv|[Hk Hv]].
        - by apply Hkey.
        - by rewrite Hk, Hv. }
      assert (Hk : k ∈ (dict_setitem k a d).*1).
      { rewrite dict_setitem_keys. destruct (decide (k ∈ d.*1)); [done|].
        apply elem_of_app. right. by apply list_elem_of_singleton. }
      split; [done|]. split; [|split].
      + intros kv Hkv. destruct (Helem kv Hkv) as [[Hin|Hin] Hkvk].
        * split; [|done].
          apply dict_setitem_elem in Hin as [Hin|[_ Hv]]; [by left|].
          right. rewrite Hv. by left.
        * split; [|done]. right. by right.
      + intros k' Hk'. apply Hkeys. rewrite dict_setitem_keys.
        destruct (decide (k ∈ d.*1)); [done|]. apply elem_of_app. by left.
      + intros r Hr. apply elem_of_cons in Hr as [->|Hr].
        * by apply Hkeys.
        * by apply Hrows. }
  destruct (Hgen new []) as (Hnd & Helem & _ & Hrows).
  - apply NoDup_nil_2.
  - intros kv Hkv. by apply elem_of_nil in Hkv.
  - split; [done|]. split; [|done].
    intros kv Hkv. destruct (Helem kv Hkv) as [[Hin|Hin] Hk].
    + by apply elem_of_nil in Hin.
    + done.
Qed.

Section WithStore.

Variable violates : PlatformProtocol -> list PlatformProtocol -> bool.

Lemma bulk_create_appends objs : forall tbl,
  exists ins,
    bulk_create_ignore_conflicts violates objs tbl = tbl ++ ins /\
    sublist ins objs.
Proof.
  induction objs as [|o rest IH]; intros tbl; simpl.
  - exists []. by rewrite app_nil_r.
  - destruct (violates o tbl).
    + destruct (IH tbl) as (ins & -> & Hsub). exists ins.
      split; [done|]. by apply sublist_cons.
    + destruct (IH (tbl ++ [o])) as (ins & -> & Hsub). exists (o :: ins).
      rewrite <- app_assoc. split; [done|]. by apply sublist_skip.
Qed.

(** The rows handed to [bulk_create]: each is built from an ssh row of a
    linux platform that enables sftp and whose platform has no sftp row,
    and no two of them are for the same platform. *)
Lemma candidates_spec tbl :
  let values :=
    (new_protocols_dict
       (collect (platforms_has_sftp tbl) (ssh_protocols tbl) [] []).1).*2 in
  NoDup ((fun r => platform_id (platform r)) <$> values) /\
  (forall r, r ∈ values ->
     exists s, s ∈ tbl /\ name s = "ssh" /\
       setting s !! "sftp_enabled" = Some (PyBool true) /\
       platform_type (platform s) = "linux" /\
       (platform_id (platform s)
        ∉ platform_id <$> platforms_has_sftp tbl) /\
       r = sftp_of s) /\
  (forall s, s ∈ ssh_protocols tbl ->
     platform_id (platform s) ∉ platform_id <$> platforms_has_sftp tbl ->
     platform_id (platform s)
     ∈ (fun r => platform_id (platform r)) <$> values).
Proof.
  intros values. subst values. rewrite collect_rows. simpl.
  set (new := (fun s => sftp_of s) <$> filter _ (ssh_protocols tbl)).
  destruct (new_protocols_dict_spec new) as (Hnd & Helem & Hkeys).
  assert (Hnew : forall r, r ∈ new ->
    exists s, s ∈ tbl /\ name s = "ssh" /\
      setting s !! "sftp_enabled" = Some (PyBool true) /\
      platform_type (platform s) = "linux" /\
      (platform_id (platform s)
       ∉ platform_id <$> platforms_has_sftp tbl) /\
      r = sftp_of s).
  { intros r Hr. apply list_elem_of_fmap_1 in Hr as (s & -> & Hs).
    apply list_elem_of_filter in Hs as [Hno Hs]. unfold ssh_protocols in Hs.
    apply list_elem_of_filter in Hs as [Hlinux Hs].
    apply list_elem_of_filter in Hs as [_ Hs].
    apply list_elem_of_filter in Hs as [[Hname Hsftp] Hs].
    by exists s. }
  assert (Hkv : forall kv, kv ∈ new_protocols_dict new ->
                  kv.1 = ("sftp", platform_id (platform kv.2))).
  { intros kv Hin. destruct (Helem kv Hin) as [Hv ->].
    destruct (Hnew _ Hv) as (s & _ & _ & _ & _ & _ & ->). done. }
  split; [|split].
  - apply (NoDup_fmap_1 (pair "sftp")).
    rewrite <- !list_fmap_compose.
    erewrite list_fmap_ext; [exact Hnd|].
    intros i kv Hi. simpl. symmetry. apply Hkv.
    by apply list_elem_of_lookup_2 in Hi.
  - intros r Hr. apply list_elem_of_fmap_1 in Hr as (kv & -> & Hin).
    apply Hnew. by apply Helem.
  - intros s Hs Hno.
    assert (Hin : sftp_of s ∈ new).
    { apply (list_elem_of_fmap_2 (fun s => sftp_of s)).
      by apply list_elem_of_filter. }
    apply Hkeys in Hin. simpl in Hin.
    apply list_elem_of_fmap_1 in Hin as (kv & Hk & Hin).
    rewrite (Hkv kv Hin) in Hk. injection Hk as Hk.
    rewrite <- list_fmap_compose.
    by apply (list_elem_of_fmap_2' _ _ kv).
Qed.

(** X16. The migration only appends rows, of which no two are for the same
    platform and none is for a platform that had an sftp row: the rows
    that were there, and so the protocols of a platform that has sftp,
    stay as they are. Whatever the table refuses. *)
Theorem migrate_platforms_appends (st : State) :
  exists ins,
    rows (migrate_platforms_sftp_protocol violates st) = rows st ++ ins /\
    NoDup ((fun r => platform_id (platform r)) <$> ins) /\
    Forall (fun r => name r = "sftp" /\
              platform_id (platform r)
              ∉ platform_id <$> platforms_has_sftp (rows st)) ins.
Proof.
  unfold migrate_platforms_sftp_protocol.
  destruct (candidates_spec (rows st)) as (Hnd & Hvalues & _).
  destruct (collect (platforms_has_sftp (rows st)) (ssh_protocols (rows st))
              [] (stdout st ++ _)) as [new out] eqn:Hcollect.
  assert (Hnew : new = (collect (platforms_has_sftp (rows st))
                          (ssh_protocols (rows st)) [] []).1).
  { pose proof (f_equal fst Hcollect) as Hfst. simpl in Hfst.
    by rewrite <- Hfst, !collect_rows. }
  subst new. simpl.
  destruct (bulk_create_appends
              (new_protocols_dict
                 (collect (platforms_has_sftp (rows st))
                    (ssh_protocols (rows st)) [] []).1).*2 (rows st))
    as (ins & -> & Hsub).
  exists ins. split; [done|]. split.
  - eapply sublist_NoDup; [exact Hnd|]. by apply fmap_sublist.
  - apply Forall_forall. intros r Hr.
    destruct (Hvalues r (elem_of_sublist _ _ _ Hr Hsub))
      as (s & _ & _ & _ & _ & Hno & ->). by split.
Qed.

(** X17. Every row the migration adds is the sftp row of an ssh row that was in
    the table, of a linux platform, with sftp enabled: it has that row's
    port and platform, it is neither primary nor required, it is default
    and public, and its only setting is sftp_home, taken from the ssh row
    or else "/tmp". *)
Theorem migrate_platforms_new_rows (st : State) (r : PlatformProtocol) :
  r ∈ rows (migrate_platforms_sftp_protocol violates st) ->
  r ∈ rows st \/
  exists s, s ∈ rows st /\ name s = "ssh" /\
    setting s !! "sftp_enabled" = Some (PyBool true) /\
    platform_type (platform s) = "linux" /\
    name r = "sftp" /\ port r = port s /\ platform r = platform s /\
    primary r = false /\ required r = false /\
    default r = true /\ public r = true /\
    setting r
    = {[ "sftp_home" :=
           from_option (fun v => v) (PyStr "/tmp")
             (setting s !! "sftp_home") ]}.
Proof.
  unfold migrate_platforms_sftp_protocol.
  destruct (candidates_spec (rows st)) as (_ & Hvalues & _).
  destruct (collect (platforms_has_sftp (rows st)) (ssh_protocols (rows st))
              [] (stdout st ++ _)) as [new out] eqn:Hcollect.
  assert (Hnew : new = (collect (platforms_has_sftp (rows st))
                          (ssh_protocols (rows st)) [] []).1).
  { pose proof (f_equal fst Hcollect) as Hfst. simpl in Hfst.
    by rewrite <- Hfst, !collect_rows. }
  subst new. simpl.
  destruct (bulk_create_appends
              (new_protocols_dict
                 (collect (platforms_has_sftp (rows st))
                    (ssh_protocols (rows st)) [] []).1).*2 (rows st))
    as (ins & -> & Hsub).
  intros Hr. apply elem_of_app in Hr as [Hr|Hr]; [by left|]. right.
  destruct (Hvalues r (elem_of_sublist _ _ _ Hr Hsub))
    as (s & Hs & Hname & Hsftp & Hlinux & _ & ->).
  exists s. by repeat split.
Qed.

(** When the table refuses nothing. *)
Hypothesis accepts_all : forall o tbl, violates o tbl = false.

Lemma bulk_create_all objs : forall tbl,
  bulk_create_ignore_conflicts violates objs tbl = tbl ++ objs.
Proof.
  induction objs as [|o rest IH]; intros tbl; simpl.
  - by rewrite app_nil_r.
  - by rewrite accepts_all, IH, <- app_assoc.
Qed.

Lemma migrate_platforms_rows (st : State) :
  rows (migrate_platforms_sftp_protocol violates st)
  = rows st ++
    (new_protocols_dict
       (collect (platforms_has_sftp (rows st))
          (ssh_protocols (rows st)) [] []).1).*2.
Proof.
  unfold migrate_platforms_sftp_protocol.
  destruct (collect (platforms_has_sftp (rows st)) (ssh_protocols (rows st))
              [] (stdout st ++ _)) as [new out] eqn:Hcollect.
  pose proof (f_equal fst Hcollect) as Hfst. simpl in Hfst.
  simpl. rewrite bulk_create_all. by rewrite <- Hfst, !collect_rows.
Qed.

(** After the migration every platform of a qualifying ssh row has an sftp
    row. *)
Lemma migrate_platforms_covers (st : State) s :
  s ∈ ssh_protocols (rows st) ->
  platform_id (platform s)
  ∈ platform_id <$>
      platforms_has_sftp (rows (migrate_platforms_sftp_protocol violates st)).
Proof.
  intros Hs. rewrite migrate_platforms_rows.
  unfold platforms_has_sftp at 1. rewrite filter_app, fmap_app, fmap_app.
  apply elem_of_app.
  destruct (decide (platform_id (platform s)
                    ∈ platform_id <$> platforms_has_sftp (rows st)))
    as [Hin|Hno]; [by left | right].
  destruct (candidates_spec (rows st)) as (_ & Hvalues & Hcover).
  specialize (Hcover s Hs Hno).
  apply list_elem_of_fmap_1 in Hcover as (r & Hid & Hr).
  rewrite Hid. apply list_elem_of_fmap_2. apply list_elem_of_fmap_2.
  apply list_elem_of_filter. split; [|done].
  by destruct (Hvalues r Hr) as (s' & _ & _ & _ & _ & _ & ->).
Qed.

(** X18. When the table refuses nothing, the migration leaves no qualifying
    platform without sftp: for every ssh row of a linux platform that
    enables sftp, the table afterwards has an sftp row of that platform. *)
Theorem migrate_platforms_complete (st : State) s :
  s ∈ rows st -> name s = "ssh" ->
  setting s !! "sftp_enabled" = Some (PyBool true) ->
  platform_type (platform s) = "linux" ->
  exists r, r ∈ rows (migrate_platforms_sftp_protocol violates st) /\
    name r = "sftp" /\
    platform_id (platform r) = platform_id (platform s).
Proof.
  intros Hs Hname Hsftp Hlinux.
  assert (Hq : s ∈ ssh_protocols (rows st)).
  { unfold ssh_protocols. rewrite !list_elem_of_filter.
    repeat split; try done. rewrite Hname. intros Hin.
    repeat (apply elem_of_cons in Hin as [Hin|Hin]; [discriminate|]).
    by apply elem_of_nil in Hin. }
  pose proof (migrate_platforms_covers st s Hq) as Hin.
  apply list_elem_of_fmap_1 in Hin as (pl & Hid & Hin).
  apply list_elem_of_fmap_1 in Hin as (r & -> & Hr).
  apply list_elem_of_filter in Hr as [Hrname Hr].
  by exists r.
Qed.

(** X19. When the table refuses nothing, running the migration again adds
    no row. *)
Theorem migrate_platforms_twice (st : State) :
  rows (migrate_platforms_sftp_protocol violates
          (migrate_platforms_sftp_protocol violates st))
  = rows (migrate_platforms_sftp_protocol violates st).
Proof.
  rewrite (migrate_platforms_rows (migrate_platforms_sftp_protocol _ st)).
  rewrite collect_rows. simpl.
  set (st1 := migrate_platforms_sftp_protocol violates st).
  assert (Hnone : filter (fun s => platform_id (platform s)
                    ∉ platform_id <$> platforms_has_sftp (rows st1))
                    (ssh_protocols (rows st1)) = []).
  { apply elem_of_nil_inv. intros s Hs.
    apply list_elem_of_filter in Hs as [Hno Hs]. apply Hno.
    assert (Hq : s ∈ ssh_protocols (rows st)).
    { subst st1. rewrite migrate_platforms_rows in Hs.
      unfold ssh_protocols in Hs |- *. rewrite !list_elem_of_filter in Hs.
      destruct Hs as (Hlinux & Hex & [Hname Hsftp] & Hs).
      rewrite !list_elem_of_filter. repeat split; try done.
      apply elem_of_app in Hs as [Hs|Hs]; [done|]. exfalso.
      destruct (candidates_spec (rows st)) as (_ & Hvalues & _).
      destruct (Hvalues s Hs) as (s' & _ & _ & _ & _ & _ & ->).
      discriminate. }
    subst st1. by apply migrate_platforms_covers. }
  rewrite Hnone. simpl. by rewrite app_nil_r.
Qed.

End WithStore.

End Migration.

(** On the sample table the linux platform, with two qualifying ssh rows,
    gets one sftp row, with the port of the later one; the platform that
    has sftp, the one whose ssh row does not enable sftp and the windows
    platform get none. *)
Lemma migrate_platforms_sample :
  migration_0121.rows
    (migration_0121.migrate_platforms_sftp_protocol (fun _ _ => false)
       Sample.before_migration)
  = Sample.platform_protocols ++ [Sample.linux_sftp].
Proof. reflexivity. Qed.

Lemma migrate_platforms_new_rows_witness :
  Sample.linux_sftp ∈ Sample.platform_protocols \/
  exists s, s ∈ Sample.platform_protocols /\
    migration_0121.name s = "ssh" /\
    migration_0121.port s = 2222 /\
    migration_0121.platform s = Sample.linux.
Proof.
  destruct (migrate_platforms_new_rows (fun _ _ => false)
              Sample.before_migration Sample.linux_sftp)
    as [Hold|(s & Hs & Hname & _ & _ & _ & Hport & Hplatform & _)].
  - rewrite migrate_platforms_sample. apply elem_of_app. right. by left.
  - by left.
  - right. exists s. by repeat split.
Defined.

Lemma migrate_platforms_complete_witness :
  exists r,
    r ∈ migration_0121.rows
          (migration_0121.migrate_platforms_sftp_protocol (fun _ _ => false)
             Sample.before_migration) /\
    migration_0121.name r = "sftp" /\
    migration_0121.platform_id (migration_0121.platform r) = 1%nat.
Proof.
  apply (migrate_platforms_complete (fun _ _ => false)
           (fun _ _ => eq_refl) Sample.before_migration
           (Sample.platform_protocol "ssh" 22
              {[ "sftp_enabled" := PyBool true;
                 "sftp_home" := PyStr "/home" ]} Sample.linux)).
  - by left.
  - reflexivity.
  - reflexivity.
  - reflexivity.
Defined.

Lemma migrate_platforms_twice_witness :
  migration_0121.rows
    (migration_0121.migrate_platforms_sftp_protocol (fun _ _ => false)
       (migration_0121.migrate_platforms_sftp_protocol (fun _ _ => false)
          Sample.before_migration))
  = Sample.platform_protocols ++ [Sample.linux_sftp].
Proof.
  rewrite (migrate_platforms_twice (fun _ _ => false)
             (fun _ _ => eq_refl) Sample.before_migration).
  reflexivity.
Defined.
